(** * Verification of the short-link resolution engine (worker/redirect)

    The development embeds the request handler [app.get("/:code")] of the
    Cloudflare worker together with its helpers ([getTemplateContent],
    [getErrorPageHtml], [generateHmacSignature], [verifyHmacSignature],
    [recordVisitEvent], [parseUserAgent]) as executable Rocq functions, and
    states the properties of the resolution engine over them.

    Conventions of the embedding:
    - a JavaScript string is a Rocq [string] holding its UTF-8 bytes (only
      well-formed strings are represented, so [TextEncoder.encode] is the
      list of its bytes and [===] on strings is [String.eqb]);
    - a JavaScript number that the handler manipulates is an integer or
      [NaN]: [JsNumber]. [Int z] stands for the double of that value, and
      the arithmetic, [parseInt] and [String(n)] of the embedding are
      those of JavaScript on the safe integers ([isSafeInteger]), which
      hold every epoch second: outside them a double rounds and
      [String(n)] leaves the decimal numeral, so every property that
      depends on a number read, printed or subtracted carries the bound;
    - a nullable column is an [option]; JavaScript truthiness is written
      out ([truthyNum], [truthyStr], [orNull]);
    - the D1 database is the list of rows of each table, a query with
      [.first()] returns the first matching row in table order, and every
      query succeeds;
    - a promise that is rejected before the handler has scheduled any
      work is [None]: this is the import of an empty HMAC key; the one
      call that can throw afterwards is [c.redirect], which refuses a
      [Location] that is not a valid header value: [RedirectFailed];
    - [c.executionCtx.waitUntil] schedules [Task]s; the handler returns its
      response together with the tasks it scheduled, and [runTasks] applies
      them to the database. *)

From Stdlib Require Import ZArith List String Ascii Bool Lia.
From Stdlib Require Import DecimalString DecimalZ.
Import ListNotations.
Local Open Scope string_scope.
Local Open Scope Z_scope.

(* ------------------------------------------------------------------ *)
(** ** JavaScript values *)

Inductive JsNumber : Type :=
| NaN : JsNumber
| Int : Z -> JsNumber.

(** [Number.MAX_SAFE_INTEGER] and [Number.isSafeInteger]: the integers
    that a double holds exactly together with their neighbours. *)
Definition MAX_SAFE_INTEGER : Z := 9007199254740991.

Definition isSafeInteger (z : Z) : bool :=
  (- MAX_SAFE_INTEGER <=? z) && (z <=? MAX_SAFE_INTEGER).

(** [x || null] on a [string | undefined]: the empty string is falsy. *)
Definition orNull (x : option string) : option string :=
  match x with
  | Some s => if String.eqb s "" then None else Some s
  | None => None
  end.

(** [a || b] on two [string | undefined] operands, [b] being the result
    when [a] is falsy. *)
Definition orElse (a b : option string) : option string :=
  match orNull a with
  | Some s => Some s
  | None => b
  end.

Definition truthyStr (x : option string) : bool :=
  match orNull x with Some _ => true | None => false end.

Definition truthyNum (z : Z) : bool := negb (z =? 0).

(** [a ?? b] *)
Definition nullish {A : Type} (a b : option A) : option A :=
  match a with Some _ => a | None => b end.

(** [String(n)] and [`${n}`] for a number: the decimal numeral, which is
    what JavaScript prints for a safe integer. *)
Definition numToString (n : JsNumber) : string :=
  match n with
  | NaN => "NaN"
  | Int z => NilEmpty.string_of_int (Z.to_int z)
  end.

Definition codeOf (c : ascii) : Z := Z.of_N (N_of_ascii c).

(** Every character (byte) of [s] satisfies [p]. *)
Fixpoint allChars (p : ascii -> bool) (s : string) : bool :=
  match s with
  | EmptyString => true
  | String c rest => p c && allChars p rest
  end.

(** Leading [StrWhiteSpaceChar]s, over the UTF-8 bytes: TAB, LF, VT, FF, CR,
    SP, U+00A0, U+1680, U+2000..U+200A, U+2028, U+2029, U+202F, U+205F,
    U+3000 and U+FEFF. *)
Fixpoint skipWhiteSpace (s : string) : string :=
  match s with
  | String c1 r1 =>
    let a := codeOf c1 in
    if ((9 <=? a) && (a <=? 13)) || (a =? 32) then skipWhiteSpace r1
    else
      match r1 with
      | String c2 r2 =>
        let b := codeOf c2 in
        if (a =? 194) && (b =? 160) then skipWhiteSpace r2
        else
          match r2 with
          | String c3 r3 =>
            let d := codeOf c3 in
            if ((a =? 225) && (b =? 154) && (d =? 128))
               || ((a =? 226) && (b =? 128)
                   && (((128 <=? d) && (d <=? 138)) || (d =? 168) || (d =? 169)
                       || (d =? 175)))
               || ((a =? 226) && (b =? 129) && (d =? 159))
               || ((a =? 227) && (b =? 128) && (d =? 128))
               || ((a =? 239) && (b =? 187) && (d =? 191))
            then skipWhiteSpace r3
            else s
          | EmptyString => s
          end
      | EmptyString => s
      end
  | EmptyString => s
  end.

Definition isDigit (c : ascii) : bool :=
  let a := codeOf c in (48 <=? a) && (a <=? 57).

(** The longest prefix of decimal digits, read most significant first;
    [None] when there is no digit. *)
Fixpoint readDigits (s : string) (acc : option Z) : option Z :=
  match s with
  | String c r =>
    if isDigit c
    then readDigits r (Some (10 * match acc with Some v => v | None => 0 end
                             + (codeOf c - 48)))
    else acc
  | EmptyString => acc
  end.

(** [parseInt(s, 10)]: the integer that the digits denote, which is the
    value JavaScript returns when that integer is a safe integer. *)
Definition parseInt (s : string) : JsNumber :=
  let t := skipWhiteSpace s in
  let '(neg, u) :=
    match t with
    | String c r =>
      if codeOf c =? 45 then (true, r)
      else if codeOf c =? 43 then (false, r)
      else (false, t)
    | EmptyString => (false, t)
    end in
  match readDigits u None with
  | Some v => Int (if neg then - v else v)
  | None => NaN
  end.

(* ------------------------------------------------------------------ *)
(** ** [crypto.subtle]: HMAC with SHA-256 (FIPS 180-4, RFC 2104) *)

Definition mask32 : Z := 4294967295.
Definition add32 (x y : Z) : Z := Z.land (x + y) mask32.
Definition rotr (n x : Z) : Z :=
  Z.lor (Z.shiftr x n) (Z.land (Z.shiftl x (32 - n)) mask32).
Definition not32 (x : Z) : Z := Z.lxor x mask32.
Definition Ch (x y z : Z) : Z := Z.lxor (Z.land x y) (Z.land (not32 x) z).
Definition Maj (x y z : Z) : Z :=
  Z.lxor (Z.lxor (Z.land x y) (Z.land x z)) (Z.land y z).
Definition bigSigma0 (x : Z) : Z :=
  Z.lxor (Z.lxor (rotr 2 x) (rotr 13 x)) (rotr 22 x).
Definition bigSigma1 (x : Z) : Z :=
  Z.lxor (Z.lxor (rotr 6 x) (rotr 11 x)) (rotr 25 x).
Definition smallSigma0 (x : Z) : Z :=
  Z.lxor (Z.lxor (rotr 7 x) (rotr 18 x)) (Z.shiftr x 3).
Definition smallSigma1 (x : Z) : Z :=
  Z.lxor (Z.lxor (rotr 17 x) (rotr 19 x)) (Z.shiftr x 10).

(** The 64 round constants (first 32 bits of the fractional parts of the
    cube roots of the first 64 primes), in decimal. *)
Definition roundConstants : list Z :=
  [ 1116352408; 1899447441; 3049323471; 3921009573;
    961987163; 1508970993; 2453635748; 2870763221;
    3624381080; 310598401; 607225278; 1426881987;
    1925078388; 2162078206; 2614888103; 3248222580;
    3835390401; 4022224774; 264347078; 604807628;
    770255983; 1249150122; 1555081692; 1996064986;
    2554220882; 2821834349; 2952996808; 3210313671;
    3336571891; 3584528711; 113926993; 338241895;
    666307205; 773529912; 1294757372; 1396182291;
    1695183700; 1986661051; 2177026350; 2456956037;
    2730485921; 2820302411; 3259730800; 3345764771;
    3516065817; 3600352804; 4094571909; 275423344;
    430227734; 506948616; 659060556; 883997877;
    958139571; 1322822218; 1537002063; 1747873779;
    1955562222; 2024104815; 2227730452; 2361852424;
    2428436474; 2756734187; 3204031479; 3329325298 ].

(** The initial hash value (from the square roots of the first 8
    primes), in decimal. *)
Definition initialHash : list Z :=
  [ 1779033703; 3144134277; 1013904242; 2773480762;
    1359893119; 2600822924; 528734635; 1541459225 ].

(** Big-endian bytes of a word of [n] bytes, and back. *)
Fixpoint wordToBytes (n : nat) (x : Z) : list Z :=
  match n with
  | O => []
  | S k => Z.land (Z.shiftr x (8 * Z.of_nat k)) 255 :: wordToBytes k x
  end.

Definition bytesToWord (bs : list Z) : Z :=
  fold_left (fun acc b => Z.lor (Z.shiftl acc 8) b) bs 0.

Fixpoint chunks {A : Type} (fuel n : nat) (l : list A) : list (list A) :=
  match fuel with
  | O => []
  | S f =>
    match l with
    | [] => []
    | _ => firstn n l :: chunks f n (skipn n l)
    end
  end.

Definition chunksOf {A : Type} (n : nat) (l : list A) : list (list A) :=
  chunks (List.length l) n l.

(** Message padding: a [0x80] byte, zeros up to 56 modulo 64, then the bit
    length on 8 bytes. *)
Definition padMessage (msg : list Z) : list Z :=
  let len := Z.of_nat (List.length msg) in
  let zeros := Z.to_nat ((55 - len) mod 64) in
  (msg ++ [128] ++ repeat 0 zeros ++ wordToBytes 8 (8 * len))%list.

(** The message schedule, most recent word first. *)
Fixpoint extendSchedule (n : nat) (rev_w : list Z) : list Z :=
  match n with
  | O => rev_w
  | S k =>
    let w2 := nth 1 rev_w 0 in
    let w7 := nth 6 rev_w 0 in
    let w15 := nth 14 rev_w 0 in
    let w16 := nth 15 rev_w 0 in
    extendSchedule k
      (add32 (add32 (add32 (smallSigma1 w2) w7) (smallSigma0 w15)) w16 :: rev_w)
  end.

Definition schedule (block : list Z) : list Z :=
  rev (extendSchedule 48 (rev (map bytesToWord (chunksOf 4 block)))).

Definition sha256Round (st : list Z) (kw : Z * Z) : list Z :=
  match st with
  | [a; b; c; d; e; f; g; h] =>
    let t1 := add32 (add32 (add32 (add32 h (bigSigma1 e)) (Ch e f g)) (fst kw))
                    (snd kw) in
    let t2 := add32 (bigSigma0 a) (Maj a b c) in
    [add32 t1 t2; a; b; c; add32 d t1; e; f; g]
  | _ => st
  end.

Definition compress (h : list Z) (block : list Z) : list Z :=
  let st := fold_left sha256Round (combine roundConstants (schedule block)) h in
  map (fun p => add32 (fst p) (snd p)) (combine h st).

Definition sha256 (msg : list Z) : list Z :=
  flat_map (wordToBytes 4)
           (fold_left compress (chunksOf 64 (padMessage msg)) initialHash).

(** [crypto.subtle.importKey('raw', keyData, { name: 'HMAC', hash:
    'SHA-256' }, false, ['sign'])]: the key is the raw data; key data of
    length zero is refused with a [DataError] (Web Cryptography API, HMAC
    key import), which rejects the promise: [None]. The deployment notes
    ask for a secret of at least 10 characters. *)
Definition importKey (keyData : list Z) : option (list Z) :=
  match keyData with
  | [] => None
  | _ => Some keyData
  end.

(** [crypto.subtle.sign('HMAC', key, data)]: a key longer than the
    64-byte block is hashed first, a shorter one is padded with zero
    bytes. *)
Definition hmacBlockKey (key : list Z) : list Z :=
  let k := if (64 <? Z.of_nat (List.length key)) then sha256 key else key in
  (k ++ repeat 0 (64 - List.length k)%nat)%list.

Definition hmacSha256 (key data : list Z) : list Z :=
  let k := hmacBlockKey key in
  sha256 (map (Z.lxor 92) k ++ sha256 (map (Z.lxor 54) k ++ data))%list.

(** A byte value. *)
Definition isByte (b : Z) : Prop := 0 <= b < 256.

(** [new TextEncoder().encode(s)] *)
Definition textEncode (s : string) : list Z :=
  map codeOf (list_ascii_of_string s).

Definition hexDigit (n : Z) : ascii :=
  match String.get (Z.to_nat n) "0123456789abcdef" with
  | Some c => c
  | None => "0"%char
  end.

(** [b.toString(16).padStart(2, '0')] joined over the bytes. *)
Fixpoint hexOfBytes (bs : list Z) : string :=
  match bs with
  | [] => ""
  | b :: r => String (hexDigit (Z.shiftr b 4))
                     (String (hexDigit (Z.land b 15)) (hexOfBytes r))
  end.

(** The signed message [`${timestamp}:${host}:${code}`]. *)
Definition ticketData (timestamp : JsNumber) (host code : string) : string :=
  numToString timestamp ++ ":" ++ host ++ ":" ++ code.

(** [generateHmacSignature]; [None] when the promise is rejected. *)
Definition generateHmacSignature
    (secret : string) (timestamp : JsNumber) (host code : string)
  : option string :=
  let data := ticketData timestamp host code in
  let keyData := textEncode secret in
  let messageData := textEncode data in
  match importKey keyData with
  | Some key => Some (hexOfBytes (hmacSha256 key messageData))
  | None => None
  end.

(** [verifyHmacSignature]; [None] when the promise is rejected. *)
Definition verifyHmacSignature
    (secret : string) (timestamp : JsNumber) (host code : string)
    (providedSignature : string) : option bool :=
  match generateHmacSignature secret timestamp host code with
  | Some expectedSignature => Some (String.eqb expectedSignature providedSignature)
  | None => None
  end.

(* ------------------------------------------------------------------ *)
(** ** The database (D1), the object store (R2) and the environment *)

(** Table [short_links]. *)
Module Links.
Record row : Type := {
  id : Z;
  domain_id : Z;
  code : string;
  target_url : string;
  redirect_http_code : Z;
  use_interstitial : Z;
  interstitial_delay : Z;
  force_interstitial : Z;
  template_id : option Z;
  password : option string;
  max_visits : option Z;
  expire_at : option Z;
  is_disabled : Z;
  deleted_at : option Z;
  total_clicks : Z;
  password_template_id : option Z;
  error_template_id : option Z;
  last_access_at : option Z
}.
End Links.

(** Table [domains]. *)
Module Domains.
Record row : Type := {
  id : Z;
  host : string;
  is_active : Z;
  error_template_id : option Z;
  password_template_id : option Z;
  interstitial_template_id : option Z
}.
End Domains.

(** Table [redirect_templates]. *)
Module Templates.
Record row : Type := {
  id : Z;
  content_type : Z;
  html_content : option string;
  main_file : option string;
  asset_prefix : option string;
  is_active : Z
}.
End Templates.

(** Table [template_assets]; [content] is the text that
    [new TextDecoder().decode] gives for the stored blob. *)
Module Assets.
Record row : Type := {
  asset_prefix : string;
  filename : string;
  storage_type : Z;
  content : option string;
  r2_key : option string
}.
End Assets.

(** [interface VisitEventData], a row of [link_visit_events]. *)
Record VisitEventData : Type := {
  short_link_id : Z;
  ev_domain_id : Z;
  ev_code : string;
  visited_at : Z;
  ip : option string;
  ua : option string;
  referer : option string;
  country : option string;
  region : option string;
  city : option string;
  device_type : option string;
  os : option string;
  browser : option string;
  is_blocked : Z;
  block_reason : option string;
  http_status : Z
}.

Record D1Database : Type := {
  short_links : list Links.row;
  domains : list Domains.row;
  redirect_templates : list Templates.row;
  template_assets : list Assets.row;
  link_visit_events : list VisitEventData
}.

(** An R2 bucket: the text of the object stored under each key. *)
Definition R2Bucket : Type := list (string * string).

Definition r2Get (b : R2Bucket) (key : string) : option string :=
  option_map snd (find (fun kv => String.eqb (fst kv) key) b).

Record Env : Type := {
  shorturl : D1Database;
  R2_BUCKET : option R2Bucket;
  JWT_SECRET : string
}.

(** [interface ShortLink]: a row of the handler's query, [sl.*] with the
    two domain columns it selects. *)
Record ShortLink : Type := {
  id : Z;
  domain_id : Z;
  code : string;
  target_url : string;
  redirect_http_code : Z;
  use_interstitial : Z;
  interstitial_delay : Z;
  force_interstitial : Z;
  template_id : option Z;
  password : option string;
  max_visits : option Z;
  expire_at : option Z;
  is_disabled : Z;
  deleted_at : option Z;
  total_clicks : Z;
  password_template_id : option Z;
  error_template_id : option Z;
  domain_password_template_id : option Z;
  domain_error_template_id : option Z
}.

Definition joinRow (sl : Links.row) (d : Domains.row) : ShortLink := {|
  id := Links.id sl;
  domain_id := Links.domain_id sl;
  code := Links.code sl;
  target_url := Links.target_url sl;
  redirect_http_code := Links.redirect_http_code sl;
  use_interstitial := Links.use_interstitial sl;
  interstitial_delay := Links.interstitial_delay sl;
  force_interstitial := Links.force_interstitial sl;
  template_id := Links.template_id sl;
  password := Links.password sl;
  max_visits := Links.max_visits sl;
  expire_at := Links.expire_at sl;
  is_disabled := Links.is_disabled sl;
  deleted_at := Links.deleted_at sl;
  total_clicks := Links.total_clicks sl;
  password_template_id := Links.password_template_id sl;
  error_template_id := Links.error_template_id sl;
  domain_password_template_id := Domains.password_template_id d;
  domain_error_template_id := Domains.error_template_id d
|}.

Definition isNull {A : Type} (x : option A) : bool :=
  match x with Some _ => false | None => true end.

(** The handler's query: [short_links] joined to [domains] on the domain
    id, matching code and host, not deleted, not disabled, domain active;
    [.first()] is the first row, in table order. *)
Definition findShortLink (db : D1Database) (code host : string)
  : option ShortLink :=
  hd_error
    (flat_map
       (fun sl =>
          map (joinRow sl)
              (filter
                 (fun d =>
                    (Links.domain_id sl =? Domains.id d)
                    && String.eqb (Links.code sl) code
                    && String.eqb (Domains.host d) host
                    && isNull (Links.deleted_at sl)
                    && (Links.is_disabled sl =? 0)
                    && (Domains.is_active d =? 1))
                 (domains db)))
       (short_links db)).

(** [SELECT error_template_id FROM domains WHERE host = ? AND is_active = 1] *)
Definition findDomainByHost (db : D1Database) (host : string)
  : option Domains.row :=
  find (fun d => String.eqb (Domains.host d) host && (Domains.is_active d =? 1))
       (domains db).

(** [SELECT ... FROM redirect_templates WHERE id = ? AND is_active = 1] *)
Definition findActiveTemplate (db : D1Database) (templateId : Z)
  : option Templates.row :=
  find (fun t => (Templates.id t =? templateId) && (Templates.is_active t =? 1))
       (redirect_templates db).

(** [SELECT ... FROM template_assets WHERE asset_prefix = ? AND filename = ?] *)
Definition findAsset (db : D1Database) (prefix file : string)
  : option Assets.row :=
  find (fun a => String.eqb (Assets.asset_prefix a) prefix
                 && String.eqb (Assets.filename a) file)
       (template_assets db).

(* ------------------------------------------------------------------ *)
(** ** Template content and placeholder substitution *)

Definition isPrefixOf (p s : string) : bool := String.prefix p s.

Fixpoint dropChars (n : nat) (s : string) : string :=
  match n, s with
  | O, _ => s
  | S k, String _ r => dropChars k r
  | S _, EmptyString => EmptyString
  end.

(** The replacement text of [String.prototype.replace] for one match of a
    pattern without capture groups: [$$], [$&], [$`] and [$'] are
    expanded, any other [$] is literal. *)
Fixpoint expandReplacement (repl matched before after : string) : string :=
  match repl with
  | EmptyString => EmptyString
  | String d tail =>
    if codeOf d =? 36 then
      match tail with
      | String c r =>
        if codeOf c =? 36 then String d (expandReplacement r matched before after)
        else if codeOf c =? 38
             then matched ++ expandReplacement r matched before after
        else if codeOf c =? 96
             then before ++ expandReplacement r matched before after
        else if codeOf c =? 39
             then after ++ expandReplacement r matched before after
        else String d (expandReplacement tail matched before after)
      | EmptyString => String d EmptyString
      end
    else String d (expandReplacement tail matched before after)
  end.

(** [s.replace(new RegExp(pat, 'g'), repl)] for a literal, non-empty
    [pat]: the matches are taken leftmost first and do not overlap.
    [before] is the text already passed, [skip] the characters of the
    current match still to drop. *)
Fixpoint replaceFrom (pat repl before s : string) (skip : nat) : string :=
  match s with
  | EmptyString => EmptyString
  | String ch rest =>
    match skip with
    | S k => replaceFrom pat repl (before ++ String ch EmptyString) rest k
    | O =>
      if isPrefixOf pat s
      then expandReplacement repl pat before (dropChars (String.length pat) s)
           ++ replaceFrom pat repl (before ++ String ch EmptyString) rest
                          (String.length pat - 1)
      else String ch
             (replaceFrom pat repl (before ++ String ch EmptyString) rest O)
    end
  end.

Definition replaceAll (pat repl s : string) : string :=
  replaceFrom pat repl EmptyString s O.

(** The loop over [Object.entries(replacements)]: every [{{key}}] is
    replaced by its value, one key after the other. The source builds
    the pattern from the key; it is the literal [{{key}}] for the keys
    of letters, digits, underscores and hyphens, which are the keys the
    worker passes. *)
Definition applyReplacements
    (replacements : list (string * string)) (html : string) : string :=
  fold_left
    (fun h kv => replaceAll ("{{" ++ fst kv ++ "}}") (snd kv) h)
    replacements html.

(** The part of [getTemplateContent] before the replacements: the raw
    text of an active template, from its inline content or from its main
    file in the database or in R2. *)
Definition loadTemplateText
    (db : D1Database) (templateId : Z) (r2Bucket : option R2Bucket)
  : option string :=
  match findActiveTemplate db templateId with
  | None => None
  | Some template =>
    if Templates.content_type template =? 0 then
      orNull (Templates.html_content template)
    else if Templates.content_type template =? 1 then
      match orNull (Templates.main_file template),
            orNull (Templates.asset_prefix template) with
      | Some main_file, Some asset_prefix =>
        match findAsset db asset_prefix main_file with
        | None => None
        | Some asset =>
          if Assets.storage_type asset =? 0 then
            Assets.content asset
          else if Assets.storage_type asset =? 1 then
            match orNull (Assets.r2_key asset), r2Bucket with
            | Some r2_key, Some bucket => r2Get bucket r2_key
            | _, _ => None
            end
          else None
        end
      | _, _ => None
      end
    else None
  end.

(** [getTemplateContent(db, templateId, replacements, r2Bucket)]; the
    result is the [html] field of the returned object. *)
Definition getTemplateContent
    (db : D1Database) (templateId : Z)
    (replacements : list (string * string)) (r2Bucket : option R2Bucket)
  : option string :=
  option_map (applyReplacements replacements)
             (loadTemplateText db templateId r2Bucket).

(** [getErrorPageHtml(db, r2Bucket, host, shortLink, replacements)] *)
Definition getErrorPageHtml
    (db : D1Database) (r2Bucket : option R2Bucket) (host : string)
    (shortLink : option ShortLink) (replacements : list (string * string))
  : option string :=
  let templateId :=
    match shortLink with
    | Some l => nullish (error_template_id l) (domain_error_template_id l)
    | None =>
      match findDomainByHost db host with
      | Some domain => Domains.error_template_id domain
      | None => None
      end
    end in
  match templateId with
  | Some tid =>
    if truthyNum tid then getTemplateContent db tid replacements r2Bucket
    else None
  | None => None
  end.

(* ------------------------------------------------------------------ *)
(** ** Requests, responses and scheduled work *)

(** What [new UAParser(ua).getResult()] reports for the request's
    user agent. *)
Record UAResult : Type := {
  ua_device_type : option string;
  ua_os_name : option string;
  ua_os_version : option string;
  ua_browser_name : option string;
  ua_browser_version : option string
}.

Record Request : Type := {
  param_code : string;
  header_host : option string;
  query_password : option string;
  query_t : option string;
  query_s : option string;
  header_cf_connecting_ip : option string;
  header_x_forwarded_for : option string;
  header_user_agent : option string;
  header_referer : option string;
  cf_country : option string;
  cf_region : option string;
  cf_city : option string;
  ua_result : UAResult
}.

(** What the client is answered: [c.html], [c.json], [c.text], the
    response of [c.redirect(location, status)], or, when that call throws,
    the answer of the worker's [app.onError], which has status 500. *)
Inductive Response : Type :=
| Html (body : string) (status : Z)
| Json (body : list (string * string)) (status : Z)
| Text (body : string) (status : Z)
| Redirect (location : string) (status : Z)
| RedirectFailed (location : string) (status : Z).

(** The promises handed to [c.executionCtx.waitUntil]. *)
Inductive Task : Type :=
| RecordVisit (event : VisitEventData)
| TouchLink (now linkId : Z).

Definition nameWithVersion (name version : option string) : string :=
  match orNull name with
  | Some n =>
    n ++ match orNull version with Some v => " " ++ v | None => "" end
  | None => "unknown"
  end.

(** [parseUserAgent(ua)]: device type, OS and browser. *)
Definition parseUserAgent (ua : option string) (result : UAResult)
  : string * string * string :=
  match orNull ua with
  | None => ("unknown", "unknown", "unknown")
  | Some _ =>
    (match orNull (ua_device_type result) with
     | Some t => t
     | None => "unknown"
     end,
     nameWithVersion (ua_os_name result) (ua_os_version result),
     nameWithVersion (ua_browser_name result) (ua_browser_version result))
  end.

(** [String(x || "")] *)
Definition stringOrEmpty (x : option string) : string :=
  match orNull x with Some s => s | None => "" end.

Definition baseEventOf (req : Request) (now : Z) (result : ShortLink)
  : VisitEventData :=
  let ua := orNull (header_user_agent req) in
  let '(device_type, os, browser) := parseUserAgent ua (ua_result req) in
  {| short_link_id := id result;
     ev_domain_id := domain_id result;
     ev_code := code result;
     visited_at := now;
     ip := orElse (header_cf_connecting_ip req)
                  (orNull (header_x_forwarded_for req));
     ua := ua;
     referer := orNull (header_referer req);
     country := Some (stringOrEmpty (cf_country req));
     region := Some (stringOrEmpty (cf_region req));
     city := Some (stringOrEmpty (cf_city req));
     device_type := Some device_type;
     os := Some os;
     browser := Some browser;
     is_blocked := 0;
     block_reason := None;
     http_status := redirect_http_code result |}.

(** [{ ...baseEvent, is_blocked: 1, block_reason, http_status }] *)
Definition blockedEvent (e : VisitEventData) (reason : string) (status : Z)
  : VisitEventData :=
  {| short_link_id := short_link_id e;
     ev_domain_id := ev_domain_id e;
     ev_code := ev_code e;
     visited_at := visited_at e;
     ip := ip e;
     ua := ua e;
     referer := referer e;
     country := country e;
     region := region e;
     city := city e;
     device_type := device_type e;
     os := os e;
     browser := browser e;
     is_blocked := 1;
     block_reason := Some reason;
     http_status := status |}.

(** [html ? c.html(html, status) : c.json(fallback, status)] *)
Definition htmlOrJson (html : option string) (status : Z)
    (error message : string) : Response :=
  match orNull html with
  | Some h => Html h status
  | None => Json [("error", error); ("message", message)] status
  end.

(** [enum ErrorCode] *)
Definition SHORTURL_NOT_FOUND : Z := -3.
Definition LINK_EXPIRED : Z := -4.
Definition LINK_LIMIT_REACHED : Z := -5.

(** [a - b], [a >= b] and [a <= b]: exact on integers, as JavaScript's
    are when the operands and the difference are safe integers; [NaN]
    makes a difference [NaN] and a comparison false. *)
Definition numSub (a b : JsNumber) : JsNumber :=
  match a, b with
  | Int x, Int y => Int (x - y)
  | _, _ => NaN
  end.

Definition numGe (a b : JsNumber) : bool :=
  match a, b with
  | Int x, Int y => y <=? x
  | _, _ => false
  end.

Definition numLe (a b : JsNumber) : bool :=
  match a, b with
  | Int x, Int y => x <=? y
  | _, _ => false
  end.

(* ------------------------------------------------------------------ *)
(** ** The handler [app.get("/:code")] *)

Definition maxValiditySeconds : Z := 30 * 60.

(** The numbers of the ticket check are safe integers, so that
    [now - timestamp] and [interstitial_delay - 1] are computed exactly:
    [now], the delay, the delay less one and, when the timestamp is a
    number, the timestamp and the elapsed time. *)
Definition exactTicketArithmetic (now delay : Z) (timestamp : JsNumber) : bool :=
  isSafeInteger now && isSafeInteger delay && isSafeInteger (delay - 1)
  && match timestamp with
     | NaN => true
     | Int t => isSafeInteger t && isSafeInteger (now - t)
     end.

(** No code point of [s] is above U+00FF: over the UTF-8 bytes, no byte
    from 0xC4 on. *)
Definition isLatin1 (s : string) : bool :=
  allChars (fun c => codeOf c <? 196) s.

(** HTTP whitespace: TAB, LF, CR and SP. *)
Definition isHttpWhitespace (c : ascii) : bool :=
  let a := codeOf c in (a =? 9) || (a =? 10) || (a =? 13) || (a =? 32).

Fixpoint stripLeading (s : string) : string :=
  match s with
  | String c rest => if isHttpWhitespace c then stripLeading rest else s
  | EmptyString => EmptyString
  end.

Fixpoint stripTrailing (s : string) : string :=
  match s with
  | String c rest =>
    match stripTrailing rest with
    | EmptyString => if isHttpWhitespace c then EmptyString
                     else String c EmptyString
    | kept => String c kept
    end
  | EmptyString => EmptyString
  end.

(** [Headers.set] normalizes a value by removing the HTTP whitespace at
    both ends, and refuses it when NUL, LF or CR is left in it. *)
Definition normalizeHeaderValue (value : string) : string :=
  stripTrailing (stripLeading value).

Definition validHeaderValue (value : string) : bool :=
  allChars (fun c => let a := codeOf c in
                     negb ((a =? 0) || (a =? 10) || (a =? 13))) value.

(** [c.redirect(location, status)]: the [Location] header is set to
    [location], or to [encodeURI(location)] when [location] has a code
    point above U+00FF; [encodeURI] leaves only ASCII characters of a
    URI and percent escapes, which [Headers.set] accepts. When the value
    is refused the call throws. [status] is one of 301, 302, 307 and 308,
    the codes that the handler's type assertion names and the management
    API admits. *)
Definition redirect (location : string) (status : Z) : Response :=
  if negb (isLatin1 location)
     || validHeaderValue (normalizeHeaderValue location)
  then Redirect location status
  else RedirectFailed location status.

(** The last step of the handler, also taken by the two early redirects of
    the interstitial branch: record the visit, count the click, redirect.
    The work is handed to [waitUntil] before [c.redirect] is called, so
    it is scheduled also when that call throws. *)
Definition allowVisit (now : Z) (result : ShortLink) (baseEvent : VisitEventData)
  : Response * list Task :=
  (redirect (target_url result) (redirect_http_code result),
   [RecordVisit baseEvent; TouchLink now (id result)]).

(** The interstitial branch, entered with the link's non-null
    [template_id]; [None] when a signature computation is rejected, which
    happens before anything is scheduled. *)
Definition interstitialStep
    (env : Env) (now : Z) (host code : string)
    (timestampStr sign : option string)
    (result : ShortLink) (baseEvent : VisitEventData) (templateId : Z)
  : option (Response * list Task) :=
  let hmacSecret := JWT_SECRET env in
  let forceVerification := force_interstitial result =? 1 in
  let showInterstitial :=
    let newTimestamp := now in
    match generateHmacSignature hmacSecret (Int newTimestamp) host code with
    | None => None
    | Some newSign =>
      match getTemplateContent (shorturl env) templateId
              [("delay", numToString (Int (interstitial_delay result)));
               ("timestamp", numToString (Int newTimestamp));
               ("sign", newSign)]
              (R2_BUCKET env) with
      | Some html =>
        Some (Html html 200,
              [RecordVisit (blockedEvent baseEvent "interstitial" 200)])
      | None => Some (allowVisit now result baseEvent)
      end
    end in
  match timestampStr with
  | Some ts =>
    if negb forceVerification then Some (allowVisit now result baseEvent)
    else
      match sign with
      | Some sg =>
        let timestamp := parseInt ts in
        match verifyHmacSignature hmacSecret timestamp host code sg with
        | None => None
        | Some isValidSignature =>
          if isValidSignature then
            let elapsedSeconds := numSub (Int now) timestamp in
            if numGe elapsedSeconds (Int (interstitial_delay result - 1))
               && numLe elapsedSeconds (Int maxValiditySeconds)
            then Some (allowVisit now result baseEvent)
            else showInterstitial
          else showInterstitial
        end
      | None => showInterstitial
      end
  | None => showInterstitial
  end.

(** The password page of both branches of the password check: the
    link-level password template, or else the domain-level one, rendered
    with [errorpassword] set to [flag]; [None] when no id is configured
    or the content cannot be loaded. *)
Definition renderPasswordPage (env : Env) (result : ShortLink) (flag : string)
  : option string :=
  let passwordTemplateId :=
    nullish (password_template_id result) (domain_password_template_id result) in
  match passwordTemplateId with
  | Some tid =>
    if truthyNum tid
    then getTemplateContent (shorturl env) tid [("errorpassword", flag)]
                            (R2_BUCKET env)
    else None
  | None => None
  end.

(** The password check; [None] when the request goes on to the
    interstitial check. *)
Definition passwordStep
    (env : Env) (passwordParam : option string)
    (result : ShortLink) (baseEvent : VisitEventData)
  : option (Response * list Task) :=
  match orNull (password result) with
  | None => None
  | Some linkPassword =>
    match passwordParam with
    | Some supplied =>
      if negb (String.eqb linkPassword supplied) then
        Some (match renderPasswordPage env result "true" with
              | Some html => Html html 200
              | None => Text "server error" 500
              end,
              [RecordVisit (blockedEvent baseEvent "password_wrong" 401)])
      else None
    | None =>
      Some (match renderPasswordPage env result "false" with
            | Some html => Html html 200
            | None => Text "Password required" 401
            end,
            [RecordVisit (blockedEvent baseEvent "password" 401)])
    end
  end.

(** [result.expire_at && result.expire_at < now] *)
Definition isExpired (now : Z) (result : ShortLink) : bool :=
  match expire_at result with
  | Some e => truthyNum e && (e <? now)
  | None => false
  end.

(** [result.max_visits && result.total_clicks >= result.max_visits] *)
Definition limitReached (result : ShortLink) : bool :=
  match max_visits result with
  | Some m => truthyNum m && (m <=? total_clicks result)
  | None => false
  end.

(** The checks on a link that was found, in the handler's order. *)
Definition resolveLink
    (env : Env) (now : Z) (host code : string)
    (passwordParam timestampStr sign : option string)
    (result : ShortLink) (baseEvent : VisitEventData)
  : option (Response * list Task) :=
  if isExpired now result then
    Some
      (htmlOrJson
         (getErrorPageHtml (shorturl env) (R2_BUCKET env) host (Some result)
            [("error_message", "Link expired");
             ("error_code", numToString (Int LINK_EXPIRED));
             ("http_status", "410")])
         410 "expired" "Link expired",
       [RecordVisit (blockedEvent baseEvent "expired" 410)])
  else if limitReached result then
    Some
      (htmlOrJson
         (getErrorPageHtml (shorturl env) (R2_BUCKET env) host (Some result)
            [("error_message", "Link visit limit reached");
             ("error_code", numToString (Int LINK_LIMIT_REACHED));
             ("http_status", "410")])
         410 "limit" "Link visit limit reached",
       [RecordVisit (blockedEvent baseEvent "limit" 410)])
  else
    match passwordStep env passwordParam result baseEvent with
    | Some out => Some out
    | None =>
      match template_id result with
      | Some templateId =>
        if truthyNum (use_interstitial result) && truthyNum templateId
        then interstitialStep env now host code timestampStr sign
                              result baseEvent templateId
        else Some (allowVisit now result baseEvent)
      | None => Some (allowVisit now result baseEvent)
      end
    end.

(** The handler: [now] is [Math.floor(Date.now() / 1000)]. The result is
    the response with the work handed to [waitUntil], or [None] when the
    handler's promise is rejected before any work is scheduled. *)
Definition handleRequest (env : Env) (now : Z) (req : Request)
  : option (Response * list Task) :=
  let code := param_code req in
  let host := stringOrEmpty (header_host req) in
  let passwordParam := orNull (query_password req) in
  let timestampStr := orNull (query_t req) in
  let sign := orNull (query_s req) in
  match findShortLink (shorturl env) code host with
  | None =>
    Some
      (htmlOrJson
         (getErrorPageHtml (shorturl env) (R2_BUCKET env) host None
            [("error_message", "Short link not found");
             ("error_code", numToString (Int SHORTURL_NOT_FOUND));
             ("http_status", "404");
             ("code", code)])
         404 "not_found" "Short link not found",
       [])
  | Some result =>
    resolveLink env now host code passwordParam timestampStr sign result
                (baseEventOf req now result)
  end.

(* ------------------------------------------------------------------ *)
(** ** The states of the resolution, as the handler's conditions *)

(** The link is not password protected, or the request carries its
    password. *)
Definition passwordSatisfied (passwordParam : option string) (result : ShortLink)
  : bool :=
  match orNull (password result) with
  | None => true
  | Some linkPassword =>
    match passwordParam with
    | Some supplied => String.eqb linkPassword supplied
    | None => false
    end
  end.

(** The request resolves to [result] and none of the expiry, visit-limit
    and password checks answers it: the handler reaches its interstitial
    check. *)
Definition reachesInterstitialCheck
    (env : Env) (now : Z) (req : Request) (result : ShortLink) : Prop :=
  findShortLink (shorturl env) (param_code req)
                (stringOrEmpty (header_host req)) = Some result
  /\ isExpired now result = false
  /\ limitReached result = false
  /\ passwordSatisfied (orNull (query_password req)) result = true.

(** The same request with another [password] query parameter. *)
Definition withPassword (req : Request) (p : option string) : Request := {|
  param_code := param_code req;
  header_host := header_host req;
  query_password := p;
  query_t := query_t req;
  query_s := query_s req;
  header_cf_connecting_ip := header_cf_connecting_ip req;
  header_x_forwarded_for := header_x_forwarded_for req;
  header_user_agent := header_user_agent req;
  header_referer := header_referer req;
  cf_country := cf_country req;
  cf_region := cf_region req;
  cf_city := cf_city req;
  ua_result := ua_result req
|}.

(* ------------------------------------------------------------------ *)
(** ** Running the scheduled work *)

Definition touchRow (now linkId : Z) (sl : Links.row) : Links.row :=
  if Links.id sl =? linkId then
    {| Links.id := Links.id sl;
       Links.domain_id := Links.domain_id sl;
       Links.code := Links.code sl;
       Links.target_url := Links.target_url sl;
       Links.redirect_http_code := Links.redirect_http_code sl;
       Links.use_interstitial := Links.use_interstitial sl;
       Links.interstitial_delay := Links.interstitial_delay sl;
       Links.force_interstitial := Links.force_interstitial sl;
       Links.template_id := Links.template_id sl;
       Links.password := Links.password sl;
       Links.max_visits := Links.max_visits sl;
       Links.expire_at := Links.expire_at sl;
       Links.is_disabled := Links.is_disabled sl;
       Links.deleted_at := Links.deleted_at sl;
       Links.total_clicks := Links.total_clicks sl + 1;
       Links.password_template_id := Links.password_template_id sl;
       Links.error_template_id := Links.error_template_id sl;
       Links.last_access_at := Some now |}
  else sl.

(** [recordVisitEvent] inserts one row; the [UPDATE] adds one click to the
    link and stamps its last access. *)
Definition runTask (db : D1Database) (t : Task) : D1Database :=
  match t with
  | RecordVisit event =>
    {| short_links := short_links db;
       domains := domains db;
       redirect_templates := redirect_templates db;
       template_assets := template_assets db;
       link_visit_events := (link_visit_events db ++ [event])%list |}
  | TouchLink now linkId =>
    {| short_links := map (touchRow now linkId) (short_links db);
       domains := domains db;
       redirect_templates := redirect_templates db;
       template_assets := template_assets db;
       link_visit_events := link_visit_events db |}
  end.

Definition runTasks (db : D1Database) (ts : list Task) : D1Database :=
  fold_left runTask ts db.

(** The visit events a list of scheduled tasks records. *)
Definition recordedVisits (ts : list Task) : list VisitEventData :=
  flat_map (fun t => match t with RecordVisit e => [e] | TouchLink _ _ => [] end) ts.

Definition statusOf (r : Response) : Z :=
  match r with
  | Html _ s | Json _ s | Text _ s | Redirect _ s => s
  | RedirectFailed _ _ => 500
  end.

Definition isRedirect (r : Response) : bool :=
  match r with Redirect _ _ => true | _ => false end.

(** The shape of every answer for a link that was found: the tasks are
    one blocked visit, or the visit and the click of [allowVisit]. *)
Inductive Outcome (env : Env) (now : Z) (l : ShortLink) (b : VisitEventData)
  : Response * list Task -> Prop :=
| OutExpired r :
    isExpired now l = true -> statusOf r = 410 -> isRedirect r = false ->
    Outcome env now l b (r, [RecordVisit (blockedEvent b "expired" 410)])
| OutLimit r :
    isExpired now l = false -> limitReached l = true ->
    statusOf r = 410 -> isRedirect r = false ->
    Outcome env now l b (r, [RecordVisit (blockedEvent b "limit" 410)])
| OutPasswordWrong r :
    isExpired now l = false -> limitReached l = false ->
    truthyStr (password l) = true -> isRedirect r = false ->
    Outcome env now l b (r, [RecordVisit (blockedEvent b "password_wrong" 401)])
| OutPassword r :
    isExpired now l = false -> limitReached l = false ->
    truthyStr (password l) = true -> isRedirect r = false ->
    Outcome env now l b (r, [RecordVisit (blockedEvent b "password" 401)])
| OutInterstitial html :
    isExpired now l = false -> limitReached l = false ->
    Outcome env now l b
            (Html html 200, [RecordVisit (blockedEvent b "interstitial" 200)])
| OutAllowed :
    isExpired now l = false -> limitReached l = false ->
    Outcome env now l b (allowVisit now l b).

(** The visit event [e] carries the context of the request [req] that
    resolved to [l] at time [now]. *)
Definition carriesContext
    (req : Request) (now : Z) (l : ShortLink) (e : VisitEventData) : Prop :=
  short_link_id e = id l
  /\ ev_domain_id e = domain_id l
  /\ ev_code e = code l
  /\ visited_at e = now
  /\ ip e = orElse (header_cf_connecting_ip req)
                   (orNull (header_x_forwarded_for req))
  /\ ua e = orNull (header_user_agent req)
  /\ referer e = orNull (header_referer req)
  /\ country e = Some (stringOrEmpty (cf_country req))
  /\ region e = Some (stringOrEmpty (cf_region req))
  /\ city e = Some (stringOrEmpty (cf_city req))
  /\ (device_type e, os e, browser e)
     = (let '(d, o, b) :=
            parseUserAgent (orNull (header_user_agent req)) (ua_result req) in
        (Some d, Some o, Some b)).

(* ------------------------------------------------------------------ *)
(** ** A small installation, used to run the handler

    One active domain [x.com] carrying the three templates that the
    installer assigns to the first domain (error 1, password 2,
    interstitial 3), an inactive template 4, and one short link
    [abc123] whose policy fields vary from one example to the next. *)

Definition demoDomain : Domains.row := {|
  Domains.id := 1;
  Domains.host := "x.com";
  Domains.is_active := 1;
  Domains.error_template_id := Some 1;
  Domains.password_template_id := Some 2;
  Domains.interstitial_template_id := Some 3
|}.

Definition inlineTemplate (tid : Z) (html : string) (active : Z)
  : Templates.row := {|
  Templates.id := tid;
  Templates.content_type := 0;
  Templates.html_content := Some html;
  Templates.main_file := None;
  Templates.asset_prefix := None;
  Templates.is_active := active
|}.

Definition demoTemplates : list Templates.row :=
  [ inlineTemplate 1 "<h1>{{error_message}} ({{http_status}})</h1>" 1;
    inlineTemplate 2 "<form data-error='{{errorpassword}}'></form>" 1;
    inlineTemplate 3 "<p>wait {{delay}}s</p><a href='?t={{timestamp}}&s={{sign}}'>go</a>" 1;
    inlineTemplate 4 "<h1>retired</h1>" 0 ].

(** The link [abc123] of domain 1, redirecting with 302 to
    [https://dest.example], with 7 clicks so far. *)
Definition demoLink
    (use_interstitial interstitial_delay force_interstitial : Z)
    (template_id : option Z) (password : option string)
    (max_visits expire_at : option Z)
    (password_template_id error_template_id : option Z) : Links.row := {|
  Links.id := 10;
  Links.domain_id := 1;
  Links.code := "abc123";
  Links.target_url := "https://dest.example";
  Links.redirect_http_code := 302;
  Links.use_interstitial := use_interstitial;
  Links.interstitial_delay := interstitial_delay;
  Links.force_interstitial := force_interstitial;
  Links.template_id := template_id;
  Links.password := password;
  Links.max_visits := max_visits;
  Links.expire_at := expire_at;
  Links.is_disabled := 0;
  Links.deleted_at := None;
  Links.total_clicks := 7;
  Links.password_template_id := password_template_id;
  Links.error_template_id := error_template_id;
  Links.last_access_at := None
|}.

Definition demoEnv (links : list Links.row) : Env := {|
  shorturl := {| short_links := links;
                 domains := [demoDomain];
                 redirect_templates := demoTemplates;
                 template_assets := [];
                 link_visit_events := [] |};
  R2_BUCKET := None;
  JWT_SECRET := "S3cret-key!"
|}.

Definition noUAResult : UAResult := {|
  ua_device_type := None;
  ua_os_name := None;
  ua_os_version := None;
  ua_browser_name := None;
  ua_browser_version := None
|}.

(** [GET /<code>?password=..&t=..&s=..] with [Host: x.com] and no other
    header. *)
Definition demoRequest (code : string) (password t s : option string)
  : Request := {|
  param_code := code;
  header_host := Some "x.com";
  query_password := password;
  query_t := t;
  query_s := s;
  header_cf_connecting_ip := None;
  header_x_forwarded_for := None;
  header_user_agent := None;
  header_referer := None;
  cf_country := None;
  cf_region := None;
  cf_city := None;
  ua_result := noUAResult
|}.

Definition demoNow : Z := 1700002000.

Definition plainLink : Links.row :=
  demoLink 0 0 0 None None None None None None.


(** The link with [expire_at = 0] and with [max_visits = 0]. *)
Definition zeroExpiryLink : Links.row :=
  demoLink 0 0 0 None None None (Some 0) None None.

Definition zeroLimitLink : Links.row :=
  demoLink 0 0 0 None None (Some 0) None None None.

(** Expired in 2020, with a password and a forced interstitial. *)
Definition expiredLink : Links.row :=
  demoLink 1 5 1 (Some 3) (Some "secret1") None (Some 1600000000) None None.

(** Password protected; the password page is the domain's template 2. *)
Definition protectedLink : Links.row :=
  demoLink 0 0 0 None (Some "secret1") None None None None.

(** Forced interstitial with a delay of 5 seconds, on template 3 or on the
    inactive template 4. *)
Definition gatedLink : Links.row :=
  demoLink 1 5 1 (Some 3) None None None None None.

Definition brokenGateLink : Links.row :=
  demoLink 1 5 1 (Some 4) None None None None None.

(** [use_interstitial] set, no template of its own: only the domain has
    an interstitial template. *)
Definition domainGateLink : Links.row :=
  demoLink 1 5 0 None None None None None None.

(** Expired, with the inactive template 4 as its own error template. *)
Definition retiredErrorPageLink : Links.row :=
  demoLink 0 0 0 None None None (Some 1600000000) None (Some 4).

(** A row with another target, and an installation with another signing
    secret. *)
Definition withTarget (sl : Links.row) (target : string) : Links.row := {|
  Links.id := Links.id sl;
  Links.domain_id := Links.domain_id sl;
  Links.code := Links.code sl;
  Links.target_url := target;
  Links.redirect_http_code := Links.redirect_http_code sl;
  Links.use_interstitial := Links.use_interstitial sl;
  Links.interstitial_delay := Links.interstitial_delay sl;
  Links.force_interstitial := Links.force_interstitial sl;
  Links.template_id := Links.template_id sl;
  Links.password := Links.password sl;
  Links.max_visits := Links.max_visits sl;
  Links.expire_at := Links.expire_at sl;
  Links.is_disabled := Links.is_disabled sl;
  Links.deleted_at := Links.deleted_at sl;
  Links.total_clicks := Links.total_clicks sl;
  Links.password_template_id := Links.password_template_id sl;
  Links.error_template_id := Links.error_template_id sl;
  Links.last_access_at := Links.last_access_at sl
|}.

Definition withSecret (env : Env) (secret : string) : Env := {|
  shorturl := shorturl env;
  R2_BUCKET := R2_BUCKET env;
  JWT_SECRET := secret
|}.

(** A target with a line feed inside, as the management API stores it
    (it only trims the ends). *)
Definition brokenTarget : string :=
  "https://dest.example/a" ++ String "010"%char "b".

(** The ticket the demo installation signs for [abc123] at time [t]. *)
Definition demoTicket (t : Z) : string :=
  match generateHmacSignature "S3cret-key!" (Int t) "x.com" "abc123" with
  | Some sig => sig
  | None => ""
  end.

(* ------------------------------------------------------------------ *)
(** ** Notions used to state further properties *)

(** [pat] occurs somewhere in [s]. *)
Fixpoint occursIn (pat s : string) : bool :=
  match s with
  | EmptyString => isPrefixOf pat s
  | String _ rest => isPrefixOf pat s || occursIn pat rest
  end.

(** No character of [s] is a dollar sign. *)
Fixpoint noDollar (s : string) : bool :=
  match s with
  | EmptyString => true
  | String c rest => negb (codeOf c =? 36) && noDollar rest
  end.

(** [c] is one of [0-9a-f]. *)
Definition isLowerHex (c : ascii) : bool :=
  let a := codeOf c in
  ((48 <=? a) && (a <=? 57)) || ((97 <=? a) && (a <=? 102)).

(* ------------------------------------------------------------------ *)
(** ** Short codes and checksums of the management API
       ([api/shortlink], [api/domain]) *)

(** The alphabet of [generateCode]. *)
Definition codeChars : string :=
  "ABCDEFGHIJKLMNOPQRSTUVWXYZabcdefghijklmnopqrstuvwxyz0123456789".

(** [generateCode(length)]: [randomValues] is the content of the
    [Uint8Array(length)] after [crypto.getRandomValues]; each byte selects
    [chars[byte % chars.length]] (an index outside the string would
    append [undefined]). *)
Fixpoint generateCode (randomValues : list Z) : string :=
  match randomValues with
  | [] => ""
  | b :: rest =>
    match String.get (Z.to_nat (b mod Z.of_nat (String.length codeChars)))
                     codeChars with
    | Some c => String c (generateCode rest)
    | None => "undefined" ++ generateCode rest
    end
  end.

(** The character class [[A-Za-z0-9_-]]. *)
Definition isCodeChar (c : ascii) : bool :=
  let a := codeOf c in
  ((65 <=? a) && (a <=? 90)) || ((97 <=? a) && (a <=? 122))
  || ((48 <=? a) && (a <=? 57)) || (a =? 95) || (a =? 45).


(** The keys for which the pattern that [getTemplateContent] builds from
    the key is the literal text [{{key}}]: letters, digits, underscores
    and hyphens only, as all keys of the handler are. *)
Definition plainKeys (replacements : list (string * string)) : bool :=
  forallb (fun kv => allChars isCodeChar (fst kv)) replacements.

(** [/^[A-Za-z0-9_-]+$/.test(code)], the format check of a custom code. *)
Definition validCodeFormat (code : string) : bool :=
  negb (String.eqb code "") && allChars isCodeChar code.

(** [SELECT id FROM short_links WHERE domain_id = ? AND code = ?] has a
    row: the check made for a generated code, deleted links included. *)
Definition codeExists (db : D1Database) (domainId : Z) (code : string) : bool :=
  existsb (fun sl => (Links.domain_id sl =? domainId)
                     && String.eqb (Links.code sl) code)
          (short_links db).

(** The loop that generates a code in [POST /create]: [draw n] is the
    random content of the [n]-th call of [generateCode(6)]; the loop
    stops at the first code without a row, and gives up ([None], answered
    with status 500) once [attempts] reaches 10. *)
Fixpoint autoCodeLoop (fuel : nat) (db : D1Database) (domainId : Z)
    (draw : nat -> list Z) (attempts : nat) : option string :=
  match fuel with
  | O => None
  | S f =>
    let code := generateCode (draw attempts) in
    if negb (codeExists db domainId code) then Some code
    else if (S attempts <? 10)%nat
         then autoCodeLoop f db domainId draw (S attempts)
         else None
  end.

Definition autoCode (db : D1Database) (domainId : Z) (draw : nat -> list Z)
  : option string :=
  autoCodeLoop 10 db domainId draw 0.

(** The 256 values of a byte. *)
Definition allByteValues : list Z := map Z.of_nat (seq 0 256).

(** [sha256Hex(data)]: the SHA-256 digest in lower-case hexadecimal, the
    checksum stored with an uploaded asset. *)
Definition sha256Hex (data : list Z) : string := hexOfBytes (sha256 data).

(* ------------------------------------------------------------------ *)
(** ** The MIME type of a public asset ([assets], [getMimeType]) *)

(** [A-Z] to [a-z]; other characters are kept. [toLowerCase] also changes
    characters outside ASCII, but to characters that occur in no key of
    the table below (the Kelvin sign becomes [k], which no key contains;
    the dotted capital I becomes [i] followed by a combining dot), so
    the lookup of [getMimeType] finds the same entry. *)
Definition lowerChar (c : ascii) : ascii :=
  let a := codeOf c in
  if (65 <=? a) && (a <=? 90) then ascii_of_N (Z.to_N (a + 32)) else c.

Fixpoint toLowerCase (s : string) : string :=
  match s with
  | EmptyString => EmptyString
  | String c rest => String (lowerChar c) (toLowerCase rest)
  end.

(** [filename.split(".").pop()], reading [filename] with [acc] the text
    since the last dot. *)
Fixpoint lastSegment (acc s : string) : string :=
  match s with
  | EmptyString => acc
  | String c rest =>
    if codeOf c =? 46 then lastSegment EmptyString rest
    else lastSegment (acc ++ String c EmptyString) rest
  end.

Definition extensionOf (filename : string) : string :=
  toLowerCase (lastSegment EmptyString filename).

Definition mimeTypes : list (string * string) :=
  [ ("png", "image/png"); ("jpg", "image/jpeg"); ("jpeg", "image/jpeg");
    ("gif", "image/gif"); ("webp", "image/webp"); ("svg", "image/svg+xml");
    ("ico", "image/x-icon");
    ("css", "text/css"); ("js", "application/javascript");
    ("mjs", "application/javascript");
    ("woff", "font/woff"); ("woff2", "font/woff2"); ("ttf", "font/ttf");
    ("otf", "font/otf"); ("eot", "application/vnd.ms-fontobject");
    ("json", "application/json"); ("xml", "application/xml");
    ("txt", "text/plain"); ("html", "text/html"); ("pdf", "application/pdf") ].

Definition lookupMime (ext : string) : option string :=
  option_map snd (find (fun kv => String.eqb (fst kv) ext) mimeTypes).

(** What [getMimeType] returns: a string, or, for the two lower-case
    names that every object inherits ([constructor], [__proto__]), the
    inherited object, which is truthy and so is returned as it is. *)
Inductive MimeValue : Type :=
| MimeString (s : string)
| InheritedValue (name : string).

(** [mimeTypes[ext || ""] || "application/octet-stream"] *)
Definition getMimeType (filename : string) : MimeValue :=
  let ext := extensionOf filename in
  match lookupMime ext with
  | Some m => MimeString m
  | None =>
    if String.eqb ext "constructor" || String.eqb ext "__proto__"
    then InheritedValue ext
    else MimeString "application/octet-stream"
  end.

(** No character of [s] is a dot. *)
Fixpoint noDot (s : string) : bool :=
  match s with
  | EmptyString => true
  | String c rest => negb (codeOf c =? 46) && noDot rest
  end.

(* ================================================================== *)
(** * Properties *)

(** ** Strings and numbers *)

Lemma list_ascii_of_append (a b : string) :
  list_ascii_of_string (a ++ b)
  = (list_ascii_of_string a ++ list_ascii_of_string b)%list.
Proof.
  induction a as [|ch a IH]; simpl; [reflexivity | now rewrite IH].
Qed.

Lemma list_ascii_inj (a b : string) :
  list_ascii_of_string a = list_ascii_of_string b -> a = b.
Proof.
  intros H.
  rewrite <- (string_of_list_ascii_of_string a),
          <- (string_of_list_ascii_of_string b).
  now rewrite H.
Qed.

Lemma append_cancel_l (p a b : string) : p ++ a = p ++ b -> a = b.
Proof.
  induction p as [|ch p IH]; simpl; intros H; [exact H|].
  injection H as H. now apply IH.
Qed.

Lemma append_cancel_r (a b q : string) : a ++ q = b ++ q -> a = b.
Proof.
  intros H. apply list_ascii_inj.
  apply (f_equal list_ascii_of_string) in H.
  rewrite !list_ascii_of_append in H.
  now apply app_inv_tail in H.
Qed.

Lemma numToString_inj (a b : JsNumber) : numToString a = numToString b -> a = b.
Proof.
  assert (dec : forall z,
             NilEmpty.int_of_string (NilEmpty.string_of_int (Z.to_int z))
             = Some (Z.to_int z)) by (intros z; apply NilEmpty.isi).
  destruct a as [|x], b as [|y]; simpl; intros H.
  - reflexivity.
  - exfalso. pose proof (dec y) as D. rewrite <- H in D. discriminate D.
  - exfalso. pose proof (dec x) as D. rewrite H in D. discriminate D.
  - f_equal.
    pose proof (dec x) as Dx. rewrite H, dec in Dx.
    injection Dx as Dx.
    rewrite <- (DecimalZ.of_to x), <- (DecimalZ.of_to y). now rewrite Dx.
Qed.

(** ** The ticket protocol *)

Lemma ticketData_timestamp_inj t t' h c :
  ticketData t' h c = ticketData t h c -> t' = t.
Proof.
  unfold ticketData. intros H.
  apply append_cancel_r in H. now apply numToString_inj.
Qed.

Lemma ticketData_host_inj t h h' c :
  ticketData t h' c = ticketData t h c -> h' = h.
Proof.
  unfold ticketData. intros H.
  apply append_cancel_l in H. apply append_cancel_l in H.
  now apply append_cancel_r in H.
Qed.

Lemma ticketData_code_inj t h c c' :
  ticketData t h c' = ticketData t h c -> c' = c.
Proof.
  unfold ticketData. intros H.
  do 4 apply append_cancel_l in H. exact H.
Qed.

Lemma codeOf_inj (a b : ascii) : codeOf a = codeOf b -> a = b.
Proof.
  unfold codeOf. intros H. apply N2Z.inj in H.
  rewrite <- (ascii_N_embedding a), <- (ascii_N_embedding b). now rewrite H.
Qed.

Lemma textEncode_inj (a b : string) : textEncode a = textEncode b -> a = b.
Proof.
  unfold textEncode. intros H. apply list_ascii_inj.
  revert H. generalize (list_ascii_of_string a) (list_ascii_of_string b).
  intros l. induction l as [|x l IH]; intros [|y m]; simpl; intros H;
    try discriminate; [reflexivity|].
  injection H as Hx Hl. f_equal; [now apply codeOf_inj | now apply IH].
Qed.

Lemma wordToBytes_isByte n x : Forall isByte (wordToBytes n x).
Proof.
  induction n as [|n IH]; simpl; constructor; [|exact IH].
  unfold isByte. change 255 with (Z.ones 8). rewrite Z.land_ones by lia.
  apply Z.mod_pos_bound. lia.
Qed.

Lemma sha256_isByte msg : Forall isByte (sha256 msg).
Proof.
  unfold sha256. apply Forall_flat_map, Forall_forall.
  intros w _. apply wordToBytes_isByte.
Qed.

Lemma hexDigit_inj (m n : Z) :
  0 <= m < 16 -> 0 <= n < 16 -> hexDigit m = hexDigit n -> m = n.
Proof.
  intros Hm Hn.
  assert (Em : exists i, (i < 16)%nat /\ m = Z.of_nat i)
    by (exists (Z.to_nat m); lia).
  assert (En : exists j, (j < 16)%nat /\ n = Z.of_nat j)
    by (exists (Z.to_nat n); lia).
  destruct Em as (i & Hi & ->), En as (j & Hj & ->).
  unfold hexDigit. rewrite !Nat2Z.id. intros H. f_equal.
  do 16 (destruct i as [|i]; [do 16 (destruct j as [|j];
           [first [reflexivity | discriminate H]|]); lia|]).
  lia.
Qed.

Lemma byte_nibbles (b : Z) :
  isByte b ->
  0 <= Z.shiftr b 4 < 16 /\ 0 <= Z.land b 15 < 16
  /\ b = 16 * Z.shiftr b 4 + Z.land b 15.
Proof.
  unfold isByte. intros Hb.
  rewrite Z.shiftr_div_pow2 by lia.
  change 15 with (Z.ones 4). rewrite Z.land_ones by lia.
  change (2 ^ 4) with 16.
  pose proof (Z.div_mod b 16 ltac:(lia)).
  pose proof (Z.mod_pos_bound b 16 ltac:(lia)).
  assert (0 <= b / 16 < 16)
    by (split; [apply Z.div_pos; lia | apply Z.div_lt_upper_bound; lia]).
  lia.
Qed.

Lemma hexOfBytes_inj (xs ys : list Z) :
  Forall isByte xs -> Forall isByte ys ->
  hexOfBytes xs = hexOfBytes ys -> xs = ys.
Proof.
  intros Hx. revert ys.
  induction Hx as [|x xs Bx _ IH]; intros ys Hy; destruct Hy as [|y ys By Hy];
    simpl; intros H; try discriminate; [reflexivity|].
  injection H as Hhi Hlo Hrest.
  destruct (byte_nibbles x Bx) as (X1 & X2 & X3).
  destruct (byte_nibbles y By) as (Y1 & Y2 & Y3).
  apply hexDigit_inj in Hhi; [|assumption..].
  apply hexDigit_inj in Hlo; [|assumption..].
  f_equal; [lia | now apply IH].
Qed.

(** The fuel of [chunksOf] is enough: the blocks cover the message. *)
Lemma chunks_concat {A : Type} (n : nat) :
  (0 < n)%nat ->
  forall (fuel : nat) (l : list A),
    (List.length l <= fuel)%nat -> List.concat (chunks fuel n l) = l.
Proof.
  intros Hn fuel. induction fuel as [|fuel IH]; intros l Hlen.
  - destruct l; [reflexivity | simpl in Hlen; lia].
  - destruct l as [|x l]; [reflexivity|].
    cbn [chunks List.concat]. rewrite IH.
    + apply firstn_skipn.
    + rewrite length_skipn. cbn [List.length] in Hlen |- *. lia.
Qed.

Lemma chunksOf_concat {A : Type} (n : nat) (l : list A) :
  (0 < n)%nat -> List.concat (chunksOf n l) = l.
Proof. intros Hn. apply chunks_concat; [exact Hn | apply Nat.le_refl]. Qed.

(** Test vectors: SHA-256 of [abc] (FIPS 180-4) and HMAC-SHA-256 with the
    key [Jefe] (RFC 4231, test case 2). *)
Lemma sha256_abc :
  hexOfBytes (sha256 (textEncode "abc"))
  = "ba7816bf8f01cfea414140de5dae2223b00361a396177a9cb410ff61f20015ad".
Proof. vm_compute. reflexivity. Qed.

Lemma hmacSha256_rfc4231_case2 :
  hexOfBytes (hmacSha256 (textEncode "Jefe")
                         (textEncode "what do ya want for nothing?"))
  = "5bdcc146bf60754e6a042426089575c75a003f089d2739839dec58b964ec3843".
Proof. vm_compute. reflexivity. Qed.

Lemma textEncode_nil (secret : string) : textEncode secret = [] <-> secret = "".
Proof.
  destruct secret; simpl; split; intros H; try reflexivity; discriminate H.
Qed.

Lemma generate_rejected secret t h c :
  generateHmacSignature secret t h c = None <-> secret = "".
Proof.
  unfold generateHmacSignature, importKey. rewrite <- textEncode_nil.
  destruct (textEncode secret); split; intros H;
    try reflexivity; discriminate H.
Qed.

Lemma generate_value secret t h c :
  secret <> "" ->
  generateHmacSignature secret t h c
  = Some (hexOfBytes (hmacSha256 (textEncode secret)
                                 (textEncode (ticketData t h c)))).
Proof.
  intros Hs. unfold generateHmacSignature, importKey.
  destruct (textEncode secret) eqn:E; [|reflexivity].
  now apply textEncode_nil in E.
Qed.

Lemma verify_iff_generated secret t h c sig :
  verifyHmacSignature secret t h c sig = Some true
  <-> generateHmacSignature secret t h c = Some sig.
Proof.
  unfold verifyHmacSignature.
  destruct (generateHmacSignature secret t h c) as [e|].
  - split; intros H.
    + injection H as H. apply String.eqb_eq in H. now subst.
    + injection H as ->. now rewrite String.eqb_refl.
  - split; discriminate.
Qed.

Lemma verify_other secret t h c sig other :
  generateHmacSignature secret t h c = Some sig ->
  other <> sig ->
  verifyHmacSignature secret t h c other = Some false.
Proof.
  unfold verifyHmacSignature. intros -> Hneq. f_equal.
  apply String.eqb_neq. congruence.
Qed.

Lemma verify_iff_digests secret secret' t t' h h' c c' sig :
  generateHmacSignature secret t h c = Some sig ->
  (verifyHmacSignature secret' t' h' c' sig = Some true
   <-> secret' <> ""
       /\ hmacSha256 (textEncode secret') (textEncode (ticketData t' h' c'))
          = hmacSha256 (textEncode secret) (textEncode (ticketData t h c))).
Proof.
  intros Hgen.
  assert (Hs : secret <> "").
  { intros E. apply (generate_rejected secret t h c) in E. congruence. }
  rewrite (generate_value secret t h c Hs) in Hgen. injection Hgen as <-.
  rewrite verify_iff_generated. split.
  - intros H.
    assert (Hs' : secret' <> "").
    { intros E. apply (generate_rejected secret' t' h' c') in E. congruence. }
    split; [exact Hs'|].
    rewrite (generate_value secret' t' h' c' Hs') in H. injection H as H.
    apply hexOfBytes_inj; [apply sha256_isByte | apply sha256_isByte | exact H].
  - intros [Hs' H]. rewrite (generate_value secret' t' h' c' Hs'). now rewrite H.
Qed.

(** The secret [k] followed by one NUL character signs like [k]. *)
Lemma zero_padded_secret_collides t h c :
  generateHmacSignature ("k" ++ String Ascii.zero "") t h c
  = generateHmacSignature "k" t h c.
Proof.
  unfold generateHmacSignature, hmacSha256. simpl importKey. cbv iota.
  change (hmacBlockKey (textEncode ("k" ++ String Ascii.zero "")))
    with (hmacBlockKey (textEncode "k")).
  reflexivity.
Qed.

(** C3, the claim as stated fails: the signature generated under the
    secret [k] for timestamp 1700000000, host [x.com] and code [abc123]
    still verifies when the secret alone is changed to [k] followed by
    one NUL character, because HMAC pads a short key with zero bytes. *)
Lemma C3_changed_secret_still_verifies :
  "k" ++ String Ascii.zero "" <> "k"
  /\ generateHmacSignature "k" (Int 1700000000) "x.com" "abc123"
     = Some "5c0b41f6bcc199a87a43de4b62e4908e233cbe03407df3c3dfa9ab971b43fffd"
  /\ verifyHmacSignature ("k" ++ String Ascii.zero "")
       (Int 1700000000) "x.com" "abc123"
       "5c0b41f6bcc199a87a43de4b62e4908e233cbe03407df3c3dfa9ab971b43fffd"
     = Some true.
Proof.
  split; [discriminate|]. repeat split; vm_compute; reflexivity.
Qed.

(** C3, amended: under every non-empty secret a signature is generated,
    [verifyHmacSignature] accepts the signature that
    [generateHmacSignature] gives for the same four fields and returns
    false for every other signature value; changing the timestamp, the
    host or the code alone changes the signed message; and a generated
    signature verifies for another tuple of fields, under a non-empty
    secret, exactly when HMAC-SHA-256 gives both tuples the same
    digest. *)
Theorem C3_signature_contract secret t h c :
  secret <> "" ->
  exists sig,
    generateHmacSignature secret t h c = Some sig
    /\ verifyHmacSignature secret t h c sig = Some true
    /\ (forall other, other <> sig ->
                      verifyHmacSignature secret t h c other = Some false)
    /\ (forall secret' t' h' c',
           secret' <> "" ->
           (verifyHmacSignature secret' t' h' c' sig = Some true
            <-> hmacSha256 (textEncode secret')
                           (textEncode (ticketData t' h' c'))
                = hmacSha256 (textEncode secret)
                             (textEncode (ticketData t h c))))
    /\ (forall t', textEncode (ticketData t' h c) = textEncode (ticketData t h c)
                   <-> t' = t)
    /\ (forall h', textEncode (ticketData t h' c) = textEncode (ticketData t h c)
                   <-> h' = h)
    /\ (forall c', textEncode (ticketData t h c') = textEncode (ticketData t h c)
                   <-> c' = c).
Proof.
  intros Hs.
  pose proof (generate_value secret t h c Hs) as Hgen.
  eexists. split; [exact Hgen|].
  split; [now apply verify_iff_generated|].
  split; [intros other; now apply verify_other|].
  split.
  { intros secret' t' h' c' Hs'.
    rewrite (verify_iff_digests secret secret' t t' h h' c c' _ Hgen).
    tauto. }
  split.
  { intros t'. split; [|now intros ->].
    intros H. apply textEncode_inj in H. now apply ticketData_timestamp_inj in H. }
  split.
  { intros h'. split; [|now intros ->].
    intros H. apply textEncode_inj in H. now apply ticketData_host_inj in H. }
  intros c'. split; [|now intros ->].
  intros H. apply textEncode_inj in H. now apply ticketData_code_inj in H.
Qed.

Lemma C3_signature_contract_witness :
  "S3cret-key!" <> ""
  /\ exists sig,
      generateHmacSignature "S3cret-key!" (Int demoNow) "x.com" "abc123"
      = Some sig
      /\ verifyHmacSignature "S3cret-key!" (Int demoNow) "x.com" "abc123" sig
         = Some true.
Proof.
  assert (S : "S3cret-key!" <> "") by discriminate.
  split; [exact S|].
  destruct (C3_signature_contract "S3cret-key!" (Int demoNow) "x.com" "abc123" S)
    as (sig & G & V & _).
  exists sig. split; [exact G | exact V].
Defined.

(** ** The handler, step by step *)

Lemma allChars_stripLeading p s :
  allChars p s = true -> allChars p (stripLeading s) = true.
Proof.
  induction s as [|c rest IH]; [reflexivity|].
  cbn [stripLeading]. destruct (isHttpWhitespace c); [|trivial].
  cbn [allChars]. intros H. apply andb_prop in H. now apply IH.
Qed.

Lemma allChars_stripTrailing p s :
  allChars p s = true -> allChars p (stripTrailing s) = true.
Proof.
  induction s as [|c rest IH]; [reflexivity|].
  cbn [allChars stripTrailing]. intros H. apply andb_prop in H.
  destruct H as [Hc Hr]. specialize (IH Hr).
  destruct (stripTrailing rest) as [|k kept].
  - destruct (isHttpWhitespace c); [reflexivity|].
    cbn [allChars]. now rewrite Hc.
  - cbn [allChars] in *. now rewrite Hc, IH.
Qed.

(** A target without NUL, LF and CR is accepted by [c.redirect]. *)
Lemma redirect_valid location status :
  validHeaderValue location = true ->
  redirect location status = Redirect location status.
Proof.
  intros H. unfold redirect, normalizeHeaderValue.
  unfold validHeaderValue in *.
  rewrite (allChars_stripTrailing _ _ (allChars_stripLeading _ _ H)).
  now rewrite orb_true_r.
Qed.

Lemma handleRequest_found env now req l :
  findShortLink (shorturl env) (param_code req)
                (stringOrEmpty (header_host req)) = Some l ->
  handleRequest env now req
  = resolveLink env now (stringOrEmpty (header_host req)) (param_code req)
                (orNull (query_password req)) (orNull (query_t req))
                (orNull (query_s req)) l (baseEventOf req now l).
Proof. unfold handleRequest. intros ->. reflexivity. Qed.

Lemma statusOf_htmlOrJson html status error message :
  statusOf (htmlOrJson html status error message) = status.
Proof. unfold htmlOrJson. now destruct (orNull html). Qed.

Lemma isRedirect_htmlOrJson html status error message :
  isRedirect (htmlOrJson html status error message) = false.
Proof. unfold htmlOrJson. now destruct (orNull html). Qed.


Lemma getTemplateContent_None db tid repl r2 :
  getTemplateContent db tid repl r2 = None
  <-> loadTemplateText db tid r2 = None.
Proof.
  unfold getTemplateContent.
  destruct (loadTemplateText db tid r2); simpl; split; congruence.
Qed.

Lemma findActiveTemplate_None db tid :
  findActiveTemplate db tid = None
  <-> (forall t, In t (redirect_templates db) ->
                 Templates.id t = tid -> Templates.is_active t <> 1).
Proof.
  unfold findActiveTemplate. split.
  - intros H t Hin Hid Hact.
    apply (find_none _ _ H) in Hin.
    rewrite Hid, Hact, Z.eqb_refl in Hin. discriminate Hin.
  - intros H.
    destruct (find _ (redirect_templates db)) as [t|] eqn:F; [|reflexivity].
    apply find_some in F. destruct F as [Hin Hc].
    apply andb_prop in Hc. destruct Hc as [Hid Hact].
    apply Z.eqb_eq in Hid, Hact. now destruct (H t Hin Hid).
Qed.

Lemma loadTemplateText_inactive db tid r2 :
  findActiveTemplate db tid = None -> loadTemplateText db tid r2 = None.
Proof. unfold loadTemplateText. now intros ->. Qed.

Lemma passwordStep_None env p l b :
  passwordStep env p l b = None <-> passwordSatisfied p l = true.
Proof.
  unfold passwordStep, passwordSatisfied.
  destruct (orNull (password l)) as [lp|]; [|tauto].
  destruct p as [sp|]; [|split; discriminate].
  destruct (String.eqb lp sp); simpl; split; congruence.
Qed.

Lemma interstitialStep_outcome env now host c ts sg l b tid out :
  isExpired now l = false -> limitReached l = false ->
  interstitialStep env now host c ts sg l b tid = Some out ->
  Outcome env now l b out.
Proof.
  intros He Hl. unfold interstitialStep.
  assert (Show :
            match generateHmacSignature (JWT_SECRET env) (Int now) host c with
            | None => None
            | Some newSign =>
              match getTemplateContent (shorturl env) tid
                      [("delay", numToString (Int (interstitial_delay l)));
                       ("timestamp", numToString (Int now));
                       ("sign", newSign)]
                      (R2_BUCKET env) with
              | Some html =>
                Some (Html html 200,
                      [RecordVisit (blockedEvent b "interstitial" 200)])
              | None => Some (allowVisit now l b)
              end
            end = Some out -> Outcome env now l b out).
  { destruct (generateHmacSignature _ _ _ _); [|discriminate].
    destruct (getTemplateContent _ _ _ _); intros E; injection E as <-;
      now constructor. }
  destruct ts as [t|]; [|exact Show].
  destruct (negb (force_interstitial l =? 1)).
  { intros E. injection E as <-. now constructor. }
  destruct sg as [s|]; [|exact Show].
  destruct (verifyHmacSignature _ _ _ _ _) as [[|]|]; [|exact Show|discriminate].
  destruct (_ && _); [|exact Show].
  intros E. injection E as <-. now constructor.
Qed.

Lemma interstitialStep_answers env now host c ts sg l b tid :
  JWT_SECRET env <> "" ->
  exists out, interstitialStep env now host c ts sg l b tid = Some out.
Proof.
  intros Hs. unfold interstitialStep, verifyHmacSignature.
  rewrite (generate_value _ (Int now) host c Hs).
  assert (Show : exists out,
             match getTemplateContent (shorturl env) tid
                     [("delay", numToString (Int (interstitial_delay l)));
                      ("timestamp", numToString (Int now));
                      ("sign", hexOfBytes
                                 (hmacSha256 (textEncode (JWT_SECRET env))
                                    (textEncode (ticketData (Int now) host c))))]
                     (R2_BUCKET env) with
             | Some html =>
               Some (Html html 200,
                     [RecordVisit (blockedEvent b "interstitial" 200)])
             | None => Some (allowVisit now l b)
             end = Some out)
    by (destruct (getTemplateContent _ _ _ _); eauto).
  destruct ts as [t|]; [|exact Show].
  destruct (negb _); [eauto|].
  destruct sg as [s|]; [|exact Show].
  rewrite (generate_value _ (parseInt t) host c Hs).
  destruct (String.eqb _ _); [|exact Show].
  destruct (_ && _); [eauto | exact Show].
Qed.

Lemma resolveLink_outcome env now host c p ts sg l b out :
  resolveLink env now host c p ts sg l b = Some out ->
  Outcome env now l b out.
Proof.
  unfold resolveLink.
  destruct (isExpired now l) eqn:He.
  { intros E. injection E as <-.
    constructor; auto using statusOf_htmlOrJson, isRedirect_htmlOrJson. }
  destruct (limitReached l) eqn:Hl.
  { intros E. injection E as <-.
    constructor; auto using statusOf_htmlOrJson, isRedirect_htmlOrJson. }
  destruct (passwordStep env p l b) as [o|] eqn:Hp.
  { intros E. injection E as <-.
    unfold passwordStep in Hp.
    assert (Ht : forall lp, orNull (password l) = Some lp ->
                            truthyStr (password l) = true)
      by (intros lp E; unfold truthyStr; now rewrite E).
    destruct (orNull (password l)) as [lp|] eqn:Hlp; [|discriminate Hp].
    specialize (Ht lp eq_refl).
    destruct p as [sp|].
    - destruct (negb (String.eqb lp sp)); [|discriminate Hp].
      injection Hp as <-.
      apply OutPasswordWrong; auto.
      now destruct (renderPasswordPage env l "true").
    - injection Hp as <-.
      apply OutPassword; auto.
      now destruct (renderPasswordPage env l "false"). }
  destruct (template_id l) as [tid|];
    [|intros E; injection E as <-; now constructor].
  destruct (_ && _); [|intros E; injection E as <-; now constructor].
  now apply interstitialStep_outcome.
Qed.

Lemma resolveLink_answers env now host c p ts sg l b :
  JWT_SECRET env <> "" ->
  exists out, resolveLink env now host c p ts sg l b = Some out.
Proof.
  intros Hs. unfold resolveLink.
  destruct (isExpired now l); [eauto|].
  destruct (limitReached l); [eauto|].
  destruct (passwordStep env p l b); [eauto|].
  destruct (template_id l); [|eauto].
  destruct (_ && _); [|eauto].
  now apply interstitialStep_answers.
Qed.

Lemma blockedEvent_fields e reason status :
  is_blocked (blockedEvent e reason status) = 1
  /\ block_reason (blockedEvent e reason status) = Some reason
  /\ http_status (blockedEvent e reason status) = status.
Proof. now repeat split. Qed.

Lemma baseEventOf_unblocked req now l :
  is_blocked (baseEventOf req now l) = 0
  /\ block_reason (baseEventOf req now l) = None
  /\ http_status (baseEventOf req now l) = redirect_http_code l.
Proof.
  unfold baseEventOf.
  destruct (parseUserAgent _ _) as [[d o] b]. now repeat split.
Qed.

(** Every outcome schedules exactly one visit event: the base event on
    the allow path, or the base event marked blocked with the reason and the
    status of the check that answered. *)
Lemma outcome_single_visit env now l b out :
  Outcome env now l b out ->
  (recordedVisits (snd out) = [b]
   /\ out = allowVisit now l b
   /\ isExpired now l = false
   /\ limitReached l = false)
  \/ (exists reason status,
         recordedVisits (snd out) = [blockedEvent b reason status]
         /\ isRedirect (fst out) = false
         /\ In (reason, status)
               [("expired", 410); ("limit", 410); ("password_wrong", 401);
                ("password", 401); ("interstitial", 200)]
         /\ (reason = "expired" -> isExpired now l = true)
         /\ (reason = "limit" ->
             isExpired now l = false /\ limitReached l = true)
         /\ (reason = "expired" \/ reason = "limit" \/ reason = "interstitial" ->
             statusOf (fst out) = status)
         /\ snd out = [RecordVisit (blockedEvent b reason status)]).
Proof.
  intros Out.
  destruct Out as [r H1 H2 H3 | r H1 H2 H3 H4 | r H1 H2 H3 H4
                   | r H1 H2 H3 H4 | html H1 H2 | H1 H2].
  1: right; exists "expired", 410.
  2: right; exists "limit", 410.
  3: right; exists "password_wrong", 401.
  4: right; exists "password", 401.
  5: right; exists "interstitial", 200.
  1-5: simpl; repeat split; auto 6; try discriminate;
       try (intros [E|[E|E]]; first [discriminate E | assumption | reflexivity]).
  - left. now repeat split.
Qed.

(** ** Expiry and visit limit *)

(** C1, the claim as stated fails: the link [abc123] has [expire_at] set
    to the epoch time 0, which is earlier than the current time
    1700002000, and the request is redirected with 302, not answered
    with 410. *)
Lemma C1_epoch_zero_expiry_not_blocked :
  findShortLink (shorturl (demoEnv [zeroExpiryLink])) "abc123" "x.com"
  = Some (joinRow zeroExpiryLink demoDomain)
  /\ expire_at (joinRow zeroExpiryLink demoDomain) = Some 0
  /\ 0 < demoNow
  /\ handleRequest (demoEnv [zeroExpiryLink]) demoNow
                   (demoRequest "abc123" None None None)
     = Some (Redirect "https://dest.example" 302,
             [RecordVisit
                (baseEventOf (demoRequest "abc123" None None None) demoNow
                             (joinRow zeroExpiryLink demoDomain));
              TouchLink demoNow 10]).
Proof. repeat split; reflexivity. Qed.

(** C1, amended: for every request whose resolved link has [expire_at]
    set to a non-zero epoch time earlier than the current time, the
    handler answers with HTTP status 410 and the only scheduled work is
    one visit event blocked with reason [expired] and status 410,
    whatever the password, the interstitial configuration and the query
    parameters are. *)
Theorem C1_expired_link_is_gone env now req l e :
  findShortLink (shorturl env) (param_code req)
                (stringOrEmpty (header_host req)) = Some l ->
  expire_at l = Some e ->
  e <> 0 ->
  e < now ->
  exists r,
    handleRequest env now req
    = Some (r, [RecordVisit (blockedEvent (baseEventOf req now l) "expired" 410)])
    /\ statusOf r = 410
    /\ isRedirect r = false
    /\ is_blocked (blockedEvent (baseEventOf req now l) "expired" 410) = 1
    /\ block_reason (blockedEvent (baseEventOf req now l) "expired" 410)
       = Some "expired"
    /\ http_status (blockedEvent (baseEventOf req now l) "expired" 410) = 410.
Proof.
  intros Hfind He Hnz Hlt.
  rewrite (handleRequest_found env now req l Hfind).
  unfold resolveLink.
  assert (Hexp : isExpired now l = true).
  { unfold isExpired, truthyNum. rewrite He.
    apply andb_true_intro. split.
    - apply negb_true_iff, Z.eqb_neq, Hnz.
    - now apply Z.ltb_lt. }
  rewrite Hexp. eexists. split; [reflexivity|].
  rewrite statusOf_htmlOrJson, isRedirect_htmlOrJson.
  split; [reflexivity|]. split; [reflexivity|]. apply blockedEvent_fields.
Qed.

Lemma C1_expired_link_is_gone_witness :
  (findShortLink (shorturl (demoEnv [expiredLink])) "abc123" "x.com"
   = Some (joinRow expiredLink demoDomain)
   /\ expire_at (joinRow expiredLink demoDomain) = Some 1600000000
   /\ 1600000000 <> 0
   /\ 1600000000 < demoNow)
  /\ exists r,
      handleRequest (demoEnv [expiredLink]) demoNow
                    (demoRequest "abc123" (Some "secret1") None None)
      = Some (r, [RecordVisit
                    (blockedEvent
                       (baseEventOf
                          (demoRequest "abc123" (Some "secret1") None None)
                          demoNow (joinRow expiredLink demoDomain))
                       "expired" 410)])
      /\ statusOf r = 410
      /\ isRedirect r = false.
Proof.
  split; [repeat split; [discriminate]|].
  destruct (C1_expired_link_is_gone
              (demoEnv [expiredLink]) demoNow
              (demoRequest "abc123" (Some "secret1") None None)
              (joinRow expiredLink demoDomain) 1600000000
              eq_refl eq_refl ltac:(discriminate) eq_refl)
    as (r & H1 & H2 & H3 & _).
  exists r. split; [exact H1 | split; [exact H2 | exact H3]].
Defined.

(** C9: a link whose [max_visits] is 0 is never answered by the
    visit-limit check, whatever its click count is, and a link whose
    [expire_at] is 0 is never answered by the expiry check: the check
    itself is false and no visit event that the handler schedules
    carries the reason [limit], respectively [expired]; and the handler
    does reach an outcome (with a signing secret configured). *)
Theorem C9_zero_means_no_limit_no_expiry env now req l :
  findShortLink (shorturl env) (param_code req)
                (stringOrEmpty (header_host req)) = Some l ->
  (max_visits l = Some 0 ->
   limitReached l = false
   /\ forall out e, handleRequest env now req = Some out ->
                    In e (recordedVisits (snd out)) ->
                    block_reason e <> Some "limit")
  /\ (expire_at l = Some 0 ->
      isExpired now l = false
      /\ forall out e, handleRequest env now req = Some out ->
                       In e (recordedVisits (snd out)) ->
                       block_reason e <> Some "expired")
  /\ (JWT_SECRET env <> "" -> exists out, handleRequest env now req = Some out).
Proof.
  intros Hfind.
  rewrite (handleRequest_found env now req l Hfind).
  destruct (baseEventOf_unblocked req now l) as (_ & Hbase & _).
  split; [|split].
  - intros Hm.
    assert (Hl : limitReached l = false) by (unfold limitReached; now rewrite Hm).
    split; [exact Hl|].
    intros out e Hout Hin.
    apply resolveLink_outcome, outcome_single_visit in Hout.
    destruct Hout as [(V & _) | (reason & status & V & _ & _ & _ & Hlim & _)];
      rewrite V in Hin; destruct Hin as [<-|[]].
    + rewrite Hbase. discriminate.
    + simpl. intros E. injection E as E.
      destruct (Hlim E) as [_ Hl']. congruence.
  - intros Hx.
    assert (He : isExpired now l = false) by (unfold isExpired; now rewrite Hx).
    split; [exact He|].
    intros out e Hout Hin.
    apply resolveLink_outcome, outcome_single_visit in Hout.
    destruct Hout as [(V & _) | (reason & status & V & _ & _ & Hexp & _)];
      rewrite V in Hin; destruct Hin as [<-|[]].
    + rewrite Hbase. discriminate.
    + simpl. intros E. injection E as E.
      specialize (Hexp E). congruence.
  - apply resolveLink_answers.
Qed.

Lemma C9_zero_means_no_limit_no_expiry_witness :
  (findShortLink (shorturl (demoEnv [zeroLimitLink])) "abc123" "x.com"
   = Some (joinRow zeroLimitLink demoDomain)
   /\ max_visits (joinRow zeroLimitLink demoDomain) = Some 0
   /\ 0 <= total_clicks (joinRow zeroLimitLink demoDomain)
   /\ limitReached (joinRow zeroLimitLink demoDomain) = false)
  /\ (findShortLink (shorturl (demoEnv [zeroExpiryLink])) "abc123" "x.com"
      = Some (joinRow zeroExpiryLink demoDomain)
      /\ expire_at (joinRow zeroExpiryLink demoDomain) = Some 0
      /\ isExpired demoNow (joinRow zeroExpiryLink demoDomain) = false).
Proof.
  split.
  - split; [reflexivity|]. split; [reflexivity|]. split; [discriminate|].
    exact (proj1 (proj1 (C9_zero_means_no_limit_no_expiry
                           (demoEnv [zeroLimitLink]) demoNow
                           (demoRequest "abc123" None None None)
                           (joinRow zeroLimitLink demoDomain) eq_refl)
                        eq_refl)).
  - split; [reflexivity|]. split; [reflexivity|].
    exact (proj1 (proj1 (proj2 (C9_zero_means_no_limit_no_expiry
                                  (demoEnv [zeroExpiryLink]) demoNow
                                  (demoRequest "abc123" None None None)
                                  (joinRow zeroExpiryLink demoDomain) eq_refl))
                        eq_refl)).
Defined.

(** ** Visit recording *)

Lemma baseEventOf_context req now l :
  carriesContext req now l (baseEventOf req now l).
Proof.
  unfold carriesContext, baseEventOf.
  destruct (parseUserAgent _ _) as [[d o] b]. now repeat split.
Qed.

Lemma blockedEvent_context req now l e reason status :
  carriesContext req now l e ->
  carriesContext req now l (blockedEvent e reason status).
Proof. unfold carriesContext. simpl. tauto. Qed.

Lemma runTasks_visits db ts :
  link_visit_events (runTasks db ts)
  = (link_visit_events db ++ recordedVisits ts)%list.
Proof.
  unfold runTasks. revert db.
  induction ts as [|t ts IH]; intros db; simpl.
  - now rewrite app_nil_r.
  - rewrite IH. destruct t; simpl; [now rewrite <- app_assoc | reflexivity].
Qed.




(** ** The password check *)

Lemma resolveLink_password env now host c p ts sg l b out :
  isExpired now l = false -> limitReached l = false ->
  passwordStep env p l b = Some out ->
  resolveLink env now host c p ts sg l b = Some out.
Proof.
  intros He Hl Hp. unfold resolveLink. now rewrite He, Hl, Hp.
Qed.

Lemma renderPasswordPage_value env l flag :
  renderPasswordPage env l flag
  = match nullish (password_template_id l) (domain_password_template_id l) with
    | Some tid =>
      if tid =? 0 then None
      else option_map (replaceAll "{{errorpassword}}" flag)
                      (loadTemplateText (shorturl env) tid (R2_BUCKET env))
    | None => None
    end.
Proof.
  unfold renderPasswordPage, truthyNum.
  destruct (nullish _ _) as [tid|]; [|reflexivity].
  now destruct (tid =? 0).
Qed.

(** C4, the claim as stated fails: for the protected link [abc123]
    (password [secret1]) and the supplied password [nope], the response
    is the password template rendered with [errorpassword=true] under
    HTTP status 200, not 401; 401 is the status written into the
    recorded visit only. *)
Lemma C4_wrong_password_is_answered_with_200 :
  handleRequest (demoEnv [protectedLink]) demoNow
                (demoRequest "abc123" (Some "nope") None None)
  = Some (Html "<form data-error='true'></form>" 200,
          [RecordVisit
             (blockedEvent
                (baseEventOf (demoRequest "abc123" (Some "nope") None None)
                             demoNow (joinRow protectedLink demoDomain))
                "password_wrong" 401)])
  /\ statusOf (Html "<form data-error='true'></form>" 200) <> 401
  /\ http_status
       (blockedEvent
          (baseEventOf (demoRequest "abc123" (Some "nope") None None)
                       demoNow (joinRow protectedLink demoDomain))
          "password_wrong" 401) = 401.
Proof. split; [reflexivity | split; [discriminate | reflexivity]]. Qed.

(** C4, amended: for every request that reaches the password check of a
    password-protected link with a supplied password different from the
    stored one, the only scheduled work is one visit event, which
    carries the request context and is blocked with reason
    [password_wrong] and status 401, and the response is no redirect;
    when the effective password template (the link's, or else the
    domain's) is configured and its content loads, the response is that
    template rendered with [errorpassword=true] under HTTP status 200. *)
Theorem C4_wrong_password env now req l stored supplied :
  findShortLink (shorturl env) (param_code req)
                (stringOrEmpty (header_host req)) = Some l ->
  isExpired now l = false ->
  limitReached l = false ->
  orNull (password l) = Some stored ->
  orNull (query_password req) = Some supplied ->
  supplied <> stored ->
  (exists r,
      handleRequest env now req
      = Some (r, [RecordVisit (blockedEvent (baseEventOf req now l)
                                            "password_wrong" 401)])
      /\ isRedirect r = false)
  /\ is_blocked (blockedEvent (baseEventOf req now l) "password_wrong" 401) = 1
  /\ block_reason (blockedEvent (baseEventOf req now l) "password_wrong" 401)
     = Some "password_wrong"
  /\ http_status (blockedEvent (baseEventOf req now l) "password_wrong" 401)
     = 401
  /\ carriesContext req now l
       (blockedEvent (baseEventOf req now l) "password_wrong" 401)
  /\ (forall html,
         renderPasswordPage env l "true" = Some html ->
         handleRequest env now req
         = Some (Html html 200,
                 [RecordVisit (blockedEvent (baseEventOf req now l)
                                            "password_wrong" 401)]))
  /\ renderPasswordPage env l "true"
     = match nullish (password_template_id l) (domain_password_template_id l) with
       | Some tid =>
         if tid =? 0 then None
         else option_map (replaceAll "{{errorpassword}}" "true")
                         (loadTemplateText (shorturl env) tid (R2_BUCKET env))
       | None => None
       end.
Proof.
  intros Hfind He Hl Hst Hsup Hneq.
  assert (Hreq : handleRequest env now req
                 = Some (match renderPasswordPage env l "true" with
                         | Some html => Html html 200
                         | None => Text "server error" 500
                         end,
                         [RecordVisit (blockedEvent (baseEventOf req now l)
                                                    "password_wrong" 401)])).
  { rewrite (handleRequest_found env now req l Hfind).
    apply resolveLink_password; [assumption..|].
    unfold passwordStep. rewrite Hst, Hsup.
    assert (E : String.eqb stored supplied = false)
      by (apply String.eqb_neq; congruence).
    now rewrite E. }
  split.
  { eexists. split; [exact Hreq|].
    now destruct (renderPasswordPage env l "true"). }
  split; [reflexivity|]. split; [reflexivity|]. split; [reflexivity|].
  split; [apply blockedEvent_context, baseEventOf_context|].
  split; [|apply renderPasswordPage_value].
  intros html Hpage. now rewrite Hreq, Hpage.
Qed.

Lemma C4_wrong_password_witness :
  (findShortLink (shorturl (demoEnv [protectedLink])) "abc123" "x.com"
   = Some (joinRow protectedLink demoDomain)
   /\ orNull (password (joinRow protectedLink demoDomain)) = Some "secret1"
   /\ "nope" <> "secret1"
   /\ renderPasswordPage (demoEnv [protectedLink])
        (joinRow protectedLink demoDomain) "true"
      = Some "<form data-error='true'></form>")
  /\ handleRequest (demoEnv [protectedLink]) demoNow
                   (demoRequest "abc123" (Some "nope") None None)
     = Some (Html "<form data-error='true'></form>" 200,
             [RecordVisit
                (blockedEvent
                   (baseEventOf (demoRequest "abc123" (Some "nope") None None)
                                demoNow (joinRow protectedLink demoDomain))
                   "password_wrong" 401)]).
Proof.
  split;
    [split; [reflexivity
            | split; [reflexivity | split; [discriminate | reflexivity]]]|].
  destruct (C4_wrong_password
              (demoEnv [protectedLink]) demoNow
              (demoRequest "abc123" (Some "nope") None None)
              (joinRow protectedLink demoDomain) "secret1" "nope"
              eq_refl eq_refl eq_refl eq_refl eq_refl
              ltac:(discriminate))
    as (_ & _ & _ & _ & _ & Hpage & _).
  exact (Hpage "<form data-error='true'></form>" eq_refl).
Defined.

(** C10: a request whose [password] query parameter is present but
    empty is answered exactly as the same request without the parameter;
    when it reaches the password check of a password-protected link, the
    only scheduled work is one visit event blocked with reason
    [password] (not [password_wrong]) and status 401, and the response
    is the password template rendered with [errorpassword=false], or the
    plain text [Password required] when no template is available,
    whatever the stored password is. *)
Theorem C10_empty_password_is_no_password env now req :
  query_password req = Some "" ->
  handleRequest env now req = handleRequest env now (withPassword req None)
  /\ forall l,
      findShortLink (shorturl env) (param_code req)
                    (stringOrEmpty (header_host req)) = Some l ->
      isExpired now l = false ->
      limitReached l = false ->
      truthyStr (password l) = true ->
      handleRequest env now req
      = Some (match renderPasswordPage env l "false" with
              | Some html => Html html 200
              | None => Text "Password required" 401
              end,
              [RecordVisit (blockedEvent (baseEventOf req now l)
                                         "password" 401)])
      /\ renderPasswordPage env l "false"
         = match nullish (password_template_id l)
                         (domain_password_template_id l) with
           | Some tid =>
             if tid =? 0 then None
             else option_map (replaceAll "{{errorpassword}}" "false")
                             (loadTemplateText (shorturl env) tid
                                               (R2_BUCKET env))
           | None => None
           end
      /\ is_blocked (blockedEvent (baseEventOf req now l) "password" 401) = 1
      /\ block_reason (blockedEvent (baseEventOf req now l) "password" 401)
         = Some "password"
      /\ block_reason (blockedEvent (baseEventOf req now l) "password" 401)
         <> Some "password_wrong"
      /\ http_status (blockedEvent (baseEventOf req now l) "password" 401)
         = 401
      /\ carriesContext req now l
           (blockedEvent (baseEventOf req now l) "password" 401).
Proof.
  intros Hq.
  split; [unfold handleRequest; rewrite Hq; reflexivity|].
  intros l Hfind He Hl Hpw.
  split.
  { rewrite (handleRequest_found env now req l Hfind).
    unfold truthyStr in Hpw.
    destruct (orNull (password l)) as [stored|] eqn:Hst; [|discriminate Hpw].
    apply resolveLink_password; [assumption..|].
    unfold passwordStep. rewrite Hst, Hq. reflexivity. }
  split; [apply renderPasswordPage_value|].
  split; [reflexivity|]. split; [reflexivity|]. split; [discriminate|].
  split; [reflexivity|].
  apply blockedEvent_context, baseEventOf_context.
Qed.

Lemma C10_empty_password_is_no_password_witness :
  (query_password (demoRequest "abc123" (Some "") None None) = Some ""
   /\ findShortLink (shorturl (demoEnv [protectedLink])) "abc123" "x.com"
      = Some (joinRow protectedLink demoDomain)
   /\ truthyStr (password (joinRow protectedLink demoDomain)) = true)
  /\ handleRequest (demoEnv [protectedLink]) demoNow
                   (demoRequest "abc123" (Some "") None None)
     = Some (Html "<form data-error='false'></form>" 200,
             [RecordVisit
                (blockedEvent
                   (baseEventOf (demoRequest "abc123" (Some "") None None)
                                demoNow (joinRow protectedLink demoDomain))
                   "password" 401)]).
Proof.
  split; [repeat split; reflexivity|].
  exact (proj1 (proj2 (C10_empty_password_is_no_password
                         (demoEnv [protectedLink]) demoNow
                         (demoRequest "abc123" (Some "") None None)
                         eq_refl)
                      (joinRow protectedLink demoDomain)
                      eq_refl eq_refl eq_refl eq_refl)).
Defined.

(** ** The interstitial check *)

Lemma resolveLink_reaches_interstitial env now req l :
  reachesInterstitialCheck env now req l ->
  handleRequest env now req
  = match template_id l with
    | Some templateId =>
      if truthyNum (use_interstitial l) && truthyNum templateId
      then interstitialStep env now (stringOrEmpty (header_host req))
                            (param_code req) (orNull (query_t req))
                            (orNull (query_s req)) l (baseEventOf req now l)
                            templateId
      else Some (allowVisit now l (baseEventOf req now l))
    | None => Some (allowVisit now l (baseEventOf req now l))
    end.
Proof.
  intros (Hfind & He & Hl & Hp).
  rewrite (handleRequest_found env now req l Hfind).
  unfold resolveLink. rewrite He, Hl.
  apply (passwordStep_None env _ _ (baseEventOf req now l)) in Hp.
  now rewrite Hp.
Qed.

Lemma ticket_window now ts delay :
  numGe (numSub (Int now) ts) (Int (delay - 1))
  && numLe (numSub (Int now) ts) (Int maxValiditySeconds) = true
  <-> exists t, ts = Int t /\ delay - 1 <= now - t <= 1800.
Proof.
  destruct ts as [|t]; simpl.
  - split; [discriminate | intros (t & E & _); discriminate E].
  - rewrite andb_true_iff, !Z.leb_le. change maxValiditySeconds with 1800.
    split.
    + intros H. exists t. now split.
    + intros (t' & E & H). injection E as ->. exact H.
Qed.



Lemma touchRow_same now linkId sl :
  Links.id sl = linkId ->
  Links.total_clicks (touchRow now linkId sl) = Links.total_clicks sl + 1
  /\ Links.last_access_at (touchRow now linkId sl) = Some now.
Proof.
  intros E. unfold touchRow. rewrite E, Z.eqb_refl. now split.
Qed.

Lemma touchRow_other now linkId sl :
  Links.id sl <> linkId -> touchRow now linkId sl = sl.
Proof.
  intros E. unfold touchRow. apply Z.eqb_neq in E. now rewrite E.
Qed.

(** What makes a template unloadable: no active row with that id, an
    inline template without content, or a file template whose main file
    is not among the assets. *)
Lemma loadTemplateText_unavailable db tid r2 :
  findActiveTemplate db tid = None
  \/ (exists t, findActiveTemplate db tid = Some t
                /\ Templates.content_type t = 0
                /\ orNull (Templates.html_content t) = None)
  \/ (exists t prefix file,
         findActiveTemplate db tid = Some t
         /\ Templates.content_type t = 1
         /\ orNull (Templates.main_file t) = Some file
         /\ orNull (Templates.asset_prefix t) = Some prefix
         /\ findAsset db prefix file = None) ->
  loadTemplateText db tid r2 = None.
Proof.
  unfold loadTemplateText.
  intros [-> | [(t & -> & Hc & Hh) | (t & p & f & -> & Hc & Hf & Hp & Ha)]].
  - reflexivity.
  - now rewrite Hc, Hh.
  - now rewrite Hc, Hf, Hp, Ha.
Qed.

Lemma interstitialStep_unloadable env now host c ts sg l b tid out :
  loadTemplateText (shorturl env) tid (R2_BUCKET env) = None ->
  interstitialStep env now host c ts sg l b tid = Some out ->
  out = allowVisit now l b.
Proof.
  intros Hload. unfold interstitialStep.
  assert (Show :
            match generateHmacSignature (JWT_SECRET env) (Int now) host c with
            | None => None
            | Some newSign =>
              match getTemplateContent (shorturl env) tid
                      [("delay", numToString (Int (interstitial_delay l)));
                       ("timestamp", numToString (Int now));
                       ("sign", newSign)]
                      (R2_BUCKET env) with
              | Some html =>
                Some (Html html 200,
                      [RecordVisit (blockedEvent b "interstitial" 200)])
              | None => Some (allowVisit now l b)
              end
            end = Some out -> out = allowVisit now l b).
  { destruct (generateHmacSignature _ _ _ _) as [newSign|]; [|discriminate].
    rewrite (proj2 (getTemplateContent_None _ _ _ _) Hload).
    intros E. now injection E as <-. }
  destruct ts as [t|]; [|exact Show].
  destruct (negb _); [intros E; now injection E as <-|].
  destruct sg as [s|]; [|exact Show].
  destruct (verifyHmacSignature _ _ _ _ _) as [[|]|]; [|exact Show|discriminate].
  destruct (_ && _); [intros E; now injection E as <-|exact Show].
Qed.

(** C8, the claim as stated fails: the link [abc123] has
    [use_interstitial] set and the inactive template 4, whose content
    cannot be loaded, and the request reaches the interstitial check.
    In an installation whose signing secret is empty the handler is
    rejected when it signs the fresh ticket, before it tries the
    template: no redirect is issued and no click is counted. And when
    the target holds a line feed, the work of the allow path is
    scheduled but [c.redirect] throws: the answer has status 500. *)
Lemma C8_fall_through_needs_secret_and_valid_target :
  reachesInterstitialCheck (withSecret (demoEnv [brokenGateLink]) "") demoNow
    (demoRequest "abc123" None None None) (joinRow brokenGateLink demoDomain)
  /\ truthyNum (use_interstitial (joinRow brokenGateLink demoDomain)) = true
  /\ template_id (joinRow brokenGateLink demoDomain) = Some 4
  /\ loadTemplateText (shorturl (demoEnv [brokenGateLink])) 4 None = None
  /\ handleRequest (withSecret (demoEnv [brokenGateLink]) "") demoNow
                   (demoRequest "abc123" None None None)
     = None
  /\ handleRequest (demoEnv [withTarget brokenGateLink brokenTarget]) demoNow
                   (demoRequest "abc123" None None None)
     = Some (RedirectFailed brokenTarget 302,
             [RecordVisit
                (baseEventOf (demoRequest "abc123" None None None) demoNow
                   (joinRow (withTarget brokenGateLink brokenTarget)
                            demoDomain));
              TouchLink demoNow 10])
  /\ statusOf (RedirectFailed brokenTarget 302) = 500.
Proof. repeat split; reflexivity. Qed.

(** C8, amended: for every request to a link with [use_interstitial] and
    a link-level [template_id] set whose template content cannot be
    loaded, the interstitial check does not block: an outcome is either
    the allow path or the block of an earlier check (expiry, visit limit,
    password), never the interstitial challenge; and when the request
    reaches the interstitial check, in an installation with a non-empty
    signing secret, and the link's target is a valid header value, it is
    answered by the allow path whatever its ticket parameters are, with
    the configured redirect, one unblocked visit event and one click
    added to the link's [total_clicks]. *)
Theorem C8_unloadable_interstitial_falls_through env now req l tid :
  findShortLink (shorturl env) (param_code req)
                (stringOrEmpty (header_host req)) = Some l ->
  truthyNum (use_interstitial l) = true ->
  template_id l = Some tid ->
  loadTemplateText (shorturl env) tid (R2_BUCKET env) = None ->
  (forall out,
      handleRequest env now req = Some out ->
      out = (redirect (target_url l) (redirect_http_code l),
             [RecordVisit (baseEventOf req now l); TouchLink now (id l)])
      \/ (exists r e reason,
             out = (r, [RecordVisit e])
             /\ e = blockedEvent (baseEventOf req now l) reason
                                 (if String.eqb reason "expired"
                                     || String.eqb reason "limit"
                                  then 410 else 401)
             /\ is_blocked e = 1
             /\ block_reason e = Some reason
             /\ In reason ["expired"; "limit"; "password_wrong"; "password"]
             /\ isExpired now l
                || limitReached l
                || negb (passwordSatisfied (orNull (query_password req)) l)
                = true))
  /\ (reachesInterstitialCheck env now req l ->
      JWT_SECRET env <> "" ->
      validHeaderValue (target_url l) = true ->
      handleRequest env now req
      = Some (Redirect (target_url l) (redirect_http_code l),
              [RecordVisit (baseEventOf req now l); TouchLink now (id l)])
      /\ is_blocked (baseEventOf req now l) = 0
      /\ link_visit_events
           (runTasks (shorturl env)
                     [RecordVisit (baseEventOf req now l); TouchLink now (id l)])
         = (link_visit_events (shorturl env) ++ [baseEventOf req now l])%list
      /\ short_links
           (runTasks (shorturl env)
                     [RecordVisit (baseEventOf req now l); TouchLink now (id l)])
         = map (touchRow now (id l)) (short_links (shorturl env))
      /\ (forall sl, Links.id sl = id l ->
                     Links.total_clicks (touchRow now (id l) sl)
                     = Links.total_clicks sl + 1)
      /\ (forall sl, Links.id sl <> id l -> touchRow now (id l) sl = sl)).
Proof.
  intros Hfind Huse Htid Hload.
  rewrite (handleRequest_found env now req l Hfind).
  assert (Hfall : forall out,
             resolveLink env now (stringOrEmpty (header_host req))
               (param_code req) (orNull (query_password req))
               (orNull (query_t req)) (orNull (query_s req)) l
               (baseEventOf req now l) = Some out ->
             isExpired now l = false -> limitReached l = false ->
             passwordSatisfied (orNull (query_password req)) l = true ->
             out = allowVisit now l (baseEventOf req now l)).
  { intros out Hout He Hl Hp. unfold resolveLink in Hout.
    rewrite He, Hl in Hout.
    apply (passwordStep_None env _ _ (baseEventOf req now l)) in Hp.
    rewrite Hp, Htid in Hout.
    destruct (_ && _); [|now injection Hout as <-].
    now apply (interstitialStep_unloadable _ _ _ _ _ _ _ _ _ _ Hload Hout). }
  split.
  - intros out Hout.
    destruct (isExpired now l) eqn:He.
    { right. unfold resolveLink in Hout. rewrite He in Hout.
      injection Hout as <-. eexists _, _, "expired".
      split; [reflexivity|]. split; [reflexivity|].
      split; [reflexivity|]. split; [reflexivity|].
      split; [simpl; auto | reflexivity]. }
    destruct (limitReached l) eqn:Hl.
    { right. unfold resolveLink in Hout. rewrite He, Hl in Hout.
      injection Hout as <-. eexists _, _, "limit".
      split; [reflexivity|]. split; [reflexivity|].
      split; [reflexivity|]. split; [reflexivity|].
      split; [simpl; auto | reflexivity]. }
    destruct (passwordSatisfied (orNull (query_password req)) l) eqn:Hp;
      [left; now apply Hfall|].
    right. unfold resolveLink in Hout. rewrite He, Hl in Hout.
    unfold passwordSatisfied in Hp. unfold passwordStep in Hout.
    destruct (orNull (password l)) as [lp|]; [|discriminate Hp].
    destruct (orNull (query_password req)) as [sp|].
    + rewrite Hp in Hout. simpl in Hout. injection Hout as <-.
      eexists _, _, "password_wrong".
      split; [reflexivity|]. split; [reflexivity|].
      split; [reflexivity|]. split; [reflexivity|].
      split; [simpl; auto | reflexivity].
    + injection Hout as <-. eexists _, _, "password".
      split; [reflexivity|]. split; [reflexivity|].
      split; [reflexivity|]. split; [reflexivity|].
      split; [simpl; auto 6 | reflexivity].
  - intros (_ & He & Hl & Hp) Hs Hsafe.
    destruct (resolveLink_answers env now (stringOrEmpty (header_host req))
                (param_code req) (orNull (query_password req))
                (orNull (query_t req)) (orNull (query_s req)) l
                (baseEventOf req now l) Hs) as (out & Hout).
    rewrite Hout. rewrite (Hfall out Hout He Hl Hp).
    unfold allowVisit. rewrite (redirect_valid _ _ Hsafe).
    split; [reflexivity|].
    split; [apply baseEventOf_unblocked|].
    split; [reflexivity|].
    split; [reflexivity|].
    split.
    + intros sl E. now apply touchRow_same.
    + intros sl E. now apply touchRow_other.
Qed.

Lemma C8_unloadable_interstitial_falls_through_witness :
  (reachesInterstitialCheck (demoEnv [brokenGateLink]) demoNow
     (demoRequest "abc123" None None None) (joinRow brokenGateLink demoDomain)
   /\ JWT_SECRET (demoEnv [brokenGateLink]) <> ""
   /\ validHeaderValue (target_url (joinRow brokenGateLink demoDomain)) = true
   /\ truthyNum (use_interstitial (joinRow brokenGateLink demoDomain)) = true
   /\ template_id (joinRow brokenGateLink demoDomain) = Some 4
   /\ loadTemplateText (shorturl (demoEnv [brokenGateLink])) 4 None = None)
  /\ handleRequest (demoEnv [brokenGateLink]) demoNow
                   (demoRequest "abc123" None None None)
     = Some (Redirect "https://dest.example" 302,
             [RecordVisit (baseEventOf (demoRequest "abc123" None None None)
                                       demoNow
                                       (joinRow brokenGateLink demoDomain));
              TouchLink demoNow 10]).
Proof.
  assert (R : reachesInterstitialCheck (demoEnv [brokenGateLink]) demoNow
                (demoRequest "abc123" None None None)
                (joinRow brokenGateLink demoDomain))
    by (repeat split; reflexivity).
  assert (S : JWT_SECRET (demoEnv [brokenGateLink]) <> "") by discriminate.
  split; [split; [exact R | split; [exact S | repeat split; reflexivity]]|].
  exact (proj1 (proj2 (C8_unloadable_interstitial_falls_through
                         (demoEnv [brokenGateLink]) demoNow
                         (demoRequest "abc123" None None None)
                         (joinRow brokenGateLink demoDomain) 4
                         eq_refl eq_refl eq_refl eq_refl)
                      R S eq_refl)).
Defined.

(** C5, evaluated on the code: the domain [x.com] has the active
    interstitial template 3 and the link [abc123] has [use_interstitial]
    set and no template of its own; the handler does not fall back to the
    domain's template and redirects at once, with one click counted,
    instead of showing the interstitial page. *)
Lemma C5_domain_interstitial_template_unused :
  Domains.interstitial_template_id demoDomain = Some 3
  /\ loadTemplateText (shorturl (demoEnv [domainGateLink])) 3 None
     = Some "<p>wait {{delay}}s</p><a href='?t={{timestamp}}&s={{sign}}'>go</a>"
  /\ use_interstitial (joinRow domainGateLink demoDomain) = 1
  /\ template_id (joinRow domainGateLink demoDomain) = None
  /\ handleRequest (demoEnv [domainGateLink]) demoNow
                   (demoRequest "abc123" None None None)
     = Some (Redirect "https://dest.example" 302,
             [RecordVisit (baseEventOf (demoRequest "abc123" None None None)
                                       demoNow
                                       (joinRow domainGateLink demoDomain));
              TouchLink demoNow 10]).
Proof. repeat split; reflexivity. Qed.

(** ** Template resolution *)

(** C7, the claim as stated fails: the expired link [abc123] has the
    inactive template 4 as its own error template and its domain has the
    active error template 1; the error page does not come from the
    domain's template: resolution reports absent and the response is the
    built-in JSON body. *)
Lemma C7_inactive_link_template_hides_domain_template :
  error_template_id (joinRow retiredErrorPageLink demoDomain) = Some 4
  /\ findActiveTemplate (shorturl (demoEnv [retiredErrorPageLink])) 4 = None
  /\ domain_error_template_id (joinRow retiredErrorPageLink demoDomain) = Some 1
  /\ getTemplateContent (shorturl (demoEnv [retiredErrorPageLink])) 1 [] None
     = Some "<h1>{{error_message}} ({{http_status}})</h1>"
  /\ getErrorPageHtml (shorturl (demoEnv [retiredErrorPageLink])) None "x.com"
                      (Some (joinRow retiredErrorPageLink demoDomain)) [] = None
  /\ handleRequest (demoEnv [retiredErrorPageLink]) demoNow
                   (demoRequest "abc123" None None None)
     = Some (Json [("error", "expired"); ("message", "Link expired")] 410,
             [RecordVisit
                (blockedEvent
                   (baseEventOf (demoRequest "abc123" None None None) demoNow
                                (joinRow retiredErrorPageLink demoDomain))
                   "expired" 410)]).
Proof. repeat split; reflexivity. Qed.

(** C7, amended: template resolution for a role uses the link-level
    template id whenever it is set, whether or not that template exists
    and is active, and the domain-level id only when the link-level id
    is null; the chosen id is then loaded, and an id of 0, a missing or
    inactive template or unloadable content reports absent, without any
    further fallback to the domain-level template. *)
Theorem C7_template_precedence env host l repl flag :
  (forall i, error_template_id l = Some i ->
             getErrorPageHtml (shorturl env) (R2_BUCKET env) host (Some l) repl
             = if i =? 0 then None
               else getTemplateContent (shorturl env) i repl (R2_BUCKET env))
  /\ (forall j, error_template_id l = None ->
                domain_error_template_id l = Some j ->
                getErrorPageHtml (shorturl env) (R2_BUCKET env) host (Some l) repl
                = if j =? 0 then None
                  else getTemplateContent (shorturl env) j repl (R2_BUCKET env))
  /\ (error_template_id l = None -> domain_error_template_id l = None ->
      getErrorPageHtml (shorturl env) (R2_BUCKET env) host (Some l) repl = None)
  /\ (forall i, password_template_id l = Some i ->
                renderPasswordPage env l flag
                = if i =? 0 then None
                  else getTemplateContent (shorturl env) i
                         [("errorpassword", flag)] (R2_BUCKET env))
  /\ (forall j, password_template_id l = None ->
                domain_password_template_id l = Some j ->
                renderPasswordPage env l flag
                = if j =? 0 then None
                  else getTemplateContent (shorturl env) j
                         [("errorpassword", flag)] (R2_BUCKET env))
  /\ (password_template_id l = None -> domain_password_template_id l = None ->
      renderPasswordPage env l flag = None)
  /\ (forall tid r,
         (forall t, In t (redirect_templates (shorturl env)) ->
                    Templates.id t = tid -> Templates.is_active t <> 1) ->
         getTemplateContent (shorturl env) tid r (R2_BUCKET env) = None).
Proof.
  unfold getErrorPageHtml, renderPasswordPage, truthyNum.
  repeat split.
  - intros i ->. simpl. now destruct (i =? 0).
  - intros j -> ->. simpl. now destruct (j =? 0).
  - now intros -> ->.
  - intros i ->. simpl. now destruct (i =? 0).
  - intros j -> ->. simpl. now destruct (j =? 0).
  - now intros -> ->.
  - intros tid r H. apply getTemplateContent_None, loadTemplateText_inactive.
    now apply findActiveTemplate_None.
Qed.

Lemma C7_template_precedence_witness :
  error_template_id (joinRow retiredErrorPageLink demoDomain) = Some 4
  /\ getErrorPageHtml (shorturl (demoEnv [retiredErrorPageLink])) None "x.com"
       (Some (joinRow retiredErrorPageLink demoDomain)) []
     = getTemplateContent (shorturl (demoEnv [retiredErrorPageLink])) 4 [] None.
Proof.
  split; [reflexivity|].
  exact (proj1 (C7_template_precedence
                  (demoEnv [retiredErrorPageLink]) "x.com"
                  (joinRow retiredErrorPageLink demoDomain) [] "true")
               4 eq_refl).
Defined.

(* ================================================================== *)
(** * Further properties of the resolution engine *)

(** ** Numbers and signatures *)

Lemma skipWhiteSpace_plain c r :
  33 <= codeOf c < 128 -> skipWhiteSpace (String c r) = String c r.
Proof.
  intros Hc. cbn [skipWhiteSpace].
  assert (E1 : ((9 <=? codeOf c) && (codeOf c <=? 13)) || (codeOf c =? 32) = false).
  { apply orb_false_iff. split; [apply andb_false_iff; right|]; lia. }
  rewrite E1.
  assert (N194 : (codeOf c =? 194) = false) by lia.
  assert (N225 : (codeOf c =? 225) = false) by lia.
  assert (N226 : (codeOf c =? 226) = false) by lia.
  assert (N227 : (codeOf c =? 227) = false) by lia.
  assert (N239 : (codeOf c =? 239) = false) by lia.
  destruct r as [|c2 r2]; [reflexivity|].
  rewrite N194. cbn [andb].
  destruct r2 as [|c3 r3]; [reflexivity|].
  rewrite N225, N226, N227, N239. reflexivity.
Qed.

Lemma readDigits_acc d p :
  readDigits (NilEmpty.string_of_uint d) (Some (Z.pos p))
  = Some (Z.pos (Pos.of_uint_acc d p)).
Proof.
  revert p. induction d; intros p; cbn [NilEmpty.string_of_uint Pos.of_uint_acc];
    [reflexivity|..];
    cbn [readDigits]; (lazymatch goal with
    | |- context [isDigit ?c] => change (isDigit c) with true; cbv iota
    end);
    rewrite <- IHd; do 2 f_equal; unfold codeOf; cbn [N_of_ascii N_of_digits Z.of_N]; lia.
Qed.

Lemma readDigits_uint d :
  readDigits (NilEmpty.string_of_uint d) (Some 0)
  = Some (Z.of_N (Pos.of_uint d)).
Proof.
  induction d; cbn [NilEmpty.string_of_uint Pos.of_uint];
    [reflexivity|..];
    cbn [readDigits]; (lazymatch goal with
    | |- context [isDigit ?c] => change (isDigit c) with true; cbv iota
    end);
    [exact IHd|..];
    cbn [Z.of_N];
    (lazymatch goal with
     | |- context [Pos.of_uint_acc ?l ?q] =>
       rewrite <- (readDigits_acc l q)
     end); reflexivity.
Qed.

Lemma readDigits_start d :
  d <> Decimal.Nil ->
  readDigits (NilEmpty.string_of_uint d) None
  = readDigits (NilEmpty.string_of_uint d) (Some 0).
Proof. destruct d; intros H; [contradiction|reflexivity..]. Qed.

Lemma string_of_uint_head d :
  d <> Decimal.Nil ->
  exists c r, NilEmpty.string_of_uint d = String c r
              /\ 48 <= codeOf c <= 57.
Proof.
  destruct d; intros H; [contradiction|..];
    cbn [NilEmpty.string_of_uint]; eexists _, _; (split; [reflexivity|]);
    vm_compute; split; discriminate.
Qed.

Lemma parseInt_digits d neg :
  d <> Decimal.Nil ->
  parseInt (if neg : bool
            then String "-" (NilEmpty.string_of_uint d)
            else NilEmpty.string_of_uint d)
  = Int (if neg then - Z.of_N (Pos.of_uint d) else Z.of_N (Pos.of_uint d)).
Proof.
  intros Hd.
  destruct (string_of_uint_head d Hd) as (c & r & E & Hc).
  pose proof (readDigits_start d Hd) as Hs. rewrite readDigits_uint in Hs.
  unfold parseInt. destruct neg.
  - rewrite skipWhiteSpace_plain by (unfold codeOf; simpl; lia).
    change (codeOf "-" =? 45) with true. cbv iota. now rewrite Hs.
  - rewrite E, skipWhiteSpace_plain by lia.
    assert (N45 : (codeOf c =? 45) = false) by lia.
    assert (N43 : (codeOf c =? 43) = false) by lia.
    rewrite N45, N43, <- E. now rewrite Hs.
Qed.

Lemma parseInt_of_numToString (z : Z) :
  parseInt (numToString (Int z)) = Int z.
Proof.
  unfold numToString, Z.to_int. destruct z as [|p|p].
  - reflexivity.
  - cbn [NilEmpty.string_of_int].
    rewrite (parseInt_digits (Pos.to_uint p) false
               (DecimalPos.Unsigned.to_uint_nonnil p)).
    now rewrite DecimalPos.Unsigned.of_to.
  - cbn [NilEmpty.string_of_int].
    rewrite (parseInt_digits (Pos.to_uint p) true
               (DecimalPos.Unsigned.to_uint_nonnil p)).
    now rewrite DecimalPos.Unsigned.of_to.
Qed.

(** X1: the decimal text that the handler writes for an integer timestamp
    ([String(newTimestamp)], injected into the interstitial page) is
    read back by [parseInt(timestampStr, 10)] as the same integer, for
    every safe integer, negative ones included; the text of [NaN] is
    read back as [NaN]. *)
Theorem X1_parseInt_numToString (z : Z) :
  isSafeInteger z = true ->
  parseInt (numToString (Int z)) = Int z
  /\ parseInt (numToString NaN) = NaN.
Proof.
  intros _. split; [apply parseInt_of_numToString | reflexivity].
Qed.

Lemma X1_parseInt_numToString_witness :
  isSafeInteger (-1700002000) = true
  /\ parseInt (numToString (Int (-1700002000))) = Int (-1700002000).
Proof.
  split; [reflexivity|].
  exact (proj1 (X1_parseInt_numToString (-1700002000) eq_refl)).
Defined.

Lemma numToString_nonempty n : orNull (Some (numToString n)) = Some (numToString n).
Proof.
  destruct n as [|z]; [reflexivity|].
  unfold numToString, Z.to_int. destruct z as [|p|p]; [reflexivity|..];
    cbn [NilEmpty.string_of_int]; [|reflexivity].
  destruct (string_of_uint_head (Pos.to_uint p)
              (DecimalPos.Unsigned.to_uint_nonnil p)) as (c & r & E & _).
  now rewrite E.
Qed.

Lemma compress_length h block :
  List.length h = 8%nat -> List.length (compress h block) = 8%nat.
Proof.
  intros Hh. unfold compress.
  rewrite length_map, length_combine, Hh.
  assert (Hr : forall st kw, List.length st = 8%nat ->
                             List.length (sha256Round st kw) = 8%nat).
  { intros st kw Hst.
    do 9 (destruct st as [|? st]; try discriminate Hst). reflexivity. }
  assert (Hf : forall kws st, List.length st = 8%nat ->
                              List.length (fold_left sha256Round kws st) = 8%nat).
  { induction kws as [|kw kws IH]; intros st Hst; [exact Hst|].
    simpl. apply IH, Hr, Hst. }
  now rewrite Hf.
Qed.

Lemma sha256_length msg : List.length (sha256 msg) = 32%nat.
Proof.
  unfold sha256.
  assert (Hf : forall blocks h, List.length h = 8%nat ->
                                List.length (fold_left compress blocks h) = 8%nat).
  { induction blocks as [|b blocks IH]; intros h Hh; [exact Hh|].
    simpl. apply IH, compress_length, Hh. }
  specialize (Hf (chunksOf 64 (padMessage msg)) initialHash eq_refl).
  destruct (fold_left compress _ initialHash) as [|a l]; [discriminate Hf|].
  do 8 (destruct l as [|? l]; try discriminate Hf). reflexivity.
Qed.

Lemma hexDigit_lower n : 0 <= n < 16 -> isLowerHex (hexDigit n) = true.
Proof.
  intros Hn.
  assert (E : exists i, (i < 16)%nat /\ n = Z.of_nat i)
    by (exists (Z.to_nat n); lia).
  destruct E as (i & Hi & ->). unfold hexDigit. rewrite Nat2Z.id.
  do 16 (destruct i as [|i]; [reflexivity|]). lia.
Qed.

Lemma hexOfBytes_format bs :
  Forall isByte bs ->
  String.length (hexOfBytes bs) = (2 * List.length bs)%nat
  /\ allChars isLowerHex (hexOfBytes bs) = true.
Proof.
  induction 1 as [|b bs Hb _ [IHl IHc]]; [now split|].
  destruct (byte_nibbles b Hb) as (H1 & H2 & _).
  cbn [hexOfBytes String.length allChars List.length].
  rewrite IHl, IHc, !hexDigit_lower by assumption. split; [lia | reflexivity].
Qed.

Lemma signature_shape secret t h c sig :
  generateHmacSignature secret t h c = Some sig ->
  String.length sig = 64%nat
  /\ allChars isLowerHex sig = true
  /\ orNull (Some sig) = Some sig
  /\ noDollar sig = true.
Proof.
  unfold generateHmacSignature.
  destruct (importKey (textEncode secret)) as [key|]; [|discriminate].
  intros E. injection E as <-.
  destruct (hexOfBytes_format _ (sha256_isByte
              (map (Z.lxor 92) (hmacBlockKey key)
               ++ sha256 (map (Z.lxor 54) (hmacBlockKey key)
                          ++ textEncode (ticketData t h c)))%list))
    as [Hl Hc].
  fold (hmacSha256 key (textEncode (ticketData t h c))) in Hl, Hc.
  assert (L : String.length
                (hexOfBytes (hmacSha256 key (textEncode (ticketData t h c))))
              = 64%nat).
  { rewrite Hl. unfold hmacSha256. now rewrite sha256_length. }
  split; [exact L|]. split; [exact Hc|].
  split.
  - destruct (hexOfBytes _); [discriminate L | reflexivity].
  - revert Hc. generalize (hexOfBytes (hmacSha256 key (textEncode (ticketData t h c)))).
    induction s as [|ch s IH]; [reflexivity|].
    cbn [allChars noDollar]. intros Hc.
    apply andb_prop in Hc. destruct Hc as [Hh Hrest].
    rewrite (IH Hrest), andb_true_r.
    unfold isLowerHex in Hh. apply negb_true_iff, Z.eqb_neq.
    apply orb_prop in Hh. destruct Hh as [Hh|Hh];
      apply andb_prop in Hh; destruct Hh as [Ha Hb]; lia.
Qed.

(** X2: every signature that [generateHmacSignature] returns is 64
    characters long, all of them lower-case hexadecimal digits; in
    particular it is never empty and carries no character that
    [String.prototype.replace] treats specially. *)
Theorem X2_signature_format secret t h c sig :
  generateHmacSignature secret t h c = Some sig ->
  String.length sig = 64%nat
  /\ allChars isLowerHex sig = true
  /\ orNull (Some sig) = Some sig
  /\ noDollar sig = true.
Proof. apply signature_shape. Qed.

Lemma X2_signature_format_witness :
  generateHmacSignature "S3cret-key!" (Int demoNow) "x.com" "abc123"
  = Some (demoTicket demoNow)
  /\ String.length (demoTicket demoNow) = 64%nat.
Proof.
  assert (G : generateHmacSignature "S3cret-key!" (Int demoNow) "x.com" "abc123"
              = Some (demoTicket demoNow)) by (vm_compute; reflexivity).
  split; [exact G|].
  exact (proj1 (X2_signature_format "S3cret-key!" (Int demoNow) "x.com" "abc123"
                  (demoTicket demoNow) G)).
Defined.

(** ** The link lookup *)

Lemma hd_error_In {A : Type} (l : list A) (x : A) :
  hd_error l = Some x -> In x l.
Proof. destruct l; simpl; intros E; [discriminate | injection E as ->; now left]. Qed.

Lemma findShortLink_rows db c h l :
  findShortLink db c h = Some l ->
  exists sl d,
    In sl (short_links db) /\ In d (domains db)
    /\ l = joinRow sl d
    /\ Links.domain_id sl = Domains.id d
    /\ Links.code sl = c
    /\ Domains.host d = h
    /\ Links.deleted_at sl = None
    /\ Links.is_disabled sl = 0
    /\ Domains.is_active d = 1.
Proof.
  unfold findShortLink. intros H. apply hd_error_In in H.
  apply in_flat_map in H. destruct H as (sl & Hsl & H).
  apply in_map_iff in H. destruct H as (d & <- & H).
  apply filter_In in H. destruct H as [Hd Hc].
  repeat (apply andb_prop in Hc; destruct Hc as [Hc ?]).
  exists sl, d.
  repeat split; try assumption; try lia.
  - now apply String.eqb_eq.
  - now apply String.eqb_eq.
  - now destruct (Links.deleted_at sl).
Qed.

Lemma findShortLink_None db c h :
  findShortLink db c h = None
  <-> (forall sl d,
          In sl (short_links db) -> In d (domains db) ->
          Links.domain_id sl = Domains.id d ->
          Links.code sl = c -> Domains.host d = h ->
          Links.deleted_at sl = None -> Links.is_disabled sl = 0 ->
          Domains.is_active d = 1 -> False).
Proof.
  split.
  - unfold findShortLink. intros H sl d Hsl Hd E1 E2 E3 E4 E5 E6.
    assert (Hin : In (joinRow sl d)
                    (flat_map
                       (fun sl =>
                          map (joinRow sl)
                              (filter
                                 (fun d =>
                                    (Links.domain_id sl =? Domains.id d)
                                    && String.eqb (Links.code sl) c
                                    && String.eqb (Domains.host d) h
                                    && isNull (Links.deleted_at sl)
                                    && (Links.is_disabled sl =? 0)
                                    && (Domains.is_active d =? 1))
                                 (domains db)))
                       (short_links db))).
    { apply in_flat_map. exists sl. split; [exact Hsl|].
      apply in_map, filter_In. split; [exact Hd|].
      rewrite E1, E2, E3, E4, E5, E6, Z.eqb_refl, !String.eqb_refl. reflexivity. }
    destruct (flat_map _ _); [contradiction | discriminate H].
  - intros H.
    destruct (findShortLink db c h) as [l|] eqn:E; [|reflexivity].
    destruct (findShortLink_rows db c h l E)
      as (sl & d & Hsl & Hd & _ & E1 & E2 & E3 & E4 & E5 & E6).
    destruct (H sl d Hsl Hd E1 E2 E3 E4 E5 E6).
Qed.

(** X3: a link that the lookup returns comes from a row of [short_links]
    with the requested code that is neither deleted nor disabled, joined
    to the row of its own domain, which has the requested host and is
    active. *)
Theorem X3_lookup_sound db c h l :
  findShortLink db c h = Some l ->
  code l = c /\ deleted_at l = None /\ is_disabled l = 0
  /\ exists sl d,
      In sl (short_links db) /\ In d (domains db)
      /\ l = joinRow sl d
      /\ Links.domain_id sl = Domains.id d
      /\ Domains.host d = h
      /\ Domains.is_active d = 1.
Proof.
  intros H.
  destruct (findShortLink_rows db c h l H)
    as (sl & d & Hsl & Hd & -> & E1 & E2 & E3 & E4 & E5 & E6).
  cbn [joinRow code deleted_at is_disabled].
  repeat split; try assumption.
  exists sl, d. now repeat split.
Qed.

Lemma X3_lookup_sound_witness :
  findShortLink (shorturl (demoEnv [plainLink])) "abc123" "x.com"
  = Some (joinRow plainLink demoDomain)
  /\ code (joinRow plainLink demoDomain) = "abc123"
  /\ deleted_at (joinRow plainLink demoDomain) = None
  /\ is_disabled (joinRow plainLink demoDomain) = 0.
Proof.
  split; [reflexivity|].
  destruct (X3_lookup_sound (shorturl (demoEnv [plainLink])) "abc123" "x.com"
                            (joinRow plainLink demoDomain) eq_refl)
    as (H1 & H2 & H3 & _).
  exact (conj H1 (conj H2 H3)).
Defined.

(** X4: the lookup finds nothing exactly when no row of [short_links]
    with the requested code, not deleted and not disabled, belongs to an
    active domain with the requested host; so a deleted link, a disabled
    link and a link of an inactive domain are not found. *)
Theorem X4_lookup_none_iff db c h :
  findShortLink db c h = None
  <-> (forall sl d,
          In sl (short_links db) -> In d (domains db) ->
          Links.domain_id sl = Domains.id d ->
          Links.code sl = c -> Domains.host d = h ->
          Links.deleted_at sl = None -> Links.is_disabled sl = 0 ->
          Domains.is_active d = 1 -> False).
Proof. apply findShortLink_None. Qed.

Lemma findDomainByHost_None db h :
  findDomainByHost db h = None
  <-> (forall d, In d (domains db) -> Domains.host d = h ->
                 Domains.is_active d <> 1).
Proof.
  unfold findDomainByHost. split.
  - intros H d Hin Hh Ha. apply (find_none _ _ H) in Hin.
    rewrite Hh, Ha, String.eqb_refl in Hin. discriminate Hin.
  - intros H.
    destruct (find _ (domains db)) as [d|] eqn:F; [|reflexivity].
    apply find_some in F. destruct F as [Hin Hc].
    apply andb_prop in Hc. destruct Hc as [Hh Ha].
    apply String.eqb_eq in Hh. apply Z.eqb_eq in Ha. now destruct (H d Hin Hh).
Qed.

(** X5: when no active domain has the request's host (a missing [Host]
    header counts as the empty host), the request is answered with
    status 404 by the built-in JSON body [not_found], whatever the code
    and the stored links are, and nothing is scheduled. *)
Theorem X5_unknown_host_is_plain_404 env now req :
  (forall d, In d (domains (shorturl env)) ->
             Domains.host d = stringOrEmpty (header_host req) ->
             Domains.is_active d <> 1) ->
  handleRequest env now req
  = Some (Json [("error", "not_found"); ("message", "Short link not found")] 404,
          []).
Proof.
  intros H.
  assert (Hl : findShortLink (shorturl env) (param_code req)
                             (stringOrEmpty (header_host req)) = None).
  { apply findShortLink_None. intros sl d _ Hd _ _ Hh _ _ Ha.
    now apply (H d Hd Hh). }
  assert (Hd : findDomainByHost (shorturl env)
                                (stringOrEmpty (header_host req)) = None)
    by now apply findDomainByHost_None.
  unfold handleRequest. rewrite Hl.
  unfold getErrorPageHtml. rewrite Hd. reflexivity.
Qed.

Lemma X5_unknown_host_is_plain_404_witness :
  handleRequest (demoEnv [plainLink]) demoNow
    {| param_code := "abc123"; header_host := Some "other.example";
       query_password := None; query_t := None; query_s := None;
       header_cf_connecting_ip := None; header_x_forwarded_for := None;
       header_user_agent := None; header_referer := None;
       cf_country := None; cf_region := None; cf_city := None;
       ua_result := noUAResult |}
  = Some (Json [("error", "not_found"); ("message", "Short link not found")] 404,
          []).
Proof.
  apply X5_unknown_host_is_plain_404.
  intros d [<-|[]] Hh. discriminate Hh.
Defined.

(** ** Visit limit, counters and the visit log *)

(** X6: for every request whose resolved link is not expired and has a
    non-zero [max_visits] that its [total_clicks] has reached, the
    answer has status 410, the only scheduled work is one visit event
    blocked with reason [limit] and status 410, and running it leaves every row of
    [short_links] as it was: the blocked visit is not counted, whatever
    the password, the interstitial configuration and the query
    parameters are. *)
Theorem X6_visit_limit_reached env now req l m :
  findShortLink (shorturl env) (param_code req)
                (stringOrEmpty (header_host req)) = Some l ->
  isExpired now l = false ->
  max_visits l = Some m ->
  m <> 0 ->
  m <= total_clicks l ->
  exists r,
    handleRequest env now req
    = Some (r, [RecordVisit (blockedEvent (baseEventOf req now l) "limit" 410)])
    /\ statusOf r = 410
    /\ isRedirect r = false
    /\ short_links
         (runTasks (shorturl env)
            [RecordVisit (blockedEvent (baseEventOf req now l) "limit" 410)])
       = short_links (shorturl env)
    /\ is_blocked (blockedEvent (baseEventOf req now l) "limit" 410) = 1
    /\ block_reason (blockedEvent (baseEventOf req now l) "limit" 410)
       = Some "limit"
    /\ http_status (blockedEvent (baseEventOf req now l) "limit" 410) = 410.
Proof.
  intros Hfind He Hm Hnz Hle.
  rewrite (handleRequest_found env now req l Hfind).
  unfold resolveLink. rewrite He.
  assert (Hl : limitReached l = true).
  { unfold limitReached, truthyNum. rewrite Hm.
    apply andb_true_intro. split.
    - apply negb_true_iff, Z.eqb_neq, Hnz.
    - now apply Z.leb_le. }
  rewrite Hl. eexists. split; [reflexivity|].
  rewrite statusOf_htmlOrJson, isRedirect_htmlOrJson. now repeat split.
Qed.

Lemma X6_visit_limit_reached_witness :
  (findShortLink
     (shorturl (demoEnv [demoLink 1 5 1 (Some 3) (Some "secret1") (Some 7)
                                  None None None])) "abc123" "x.com"
   = Some (joinRow (demoLink 1 5 1 (Some 3) (Some "secret1") (Some 7)
                             None None None) demoDomain)
   /\ 7 <> 0
   /\ 7 <= total_clicks (joinRow (demoLink 1 5 1 (Some 3) (Some "secret1")
                                           (Some 7) None None None) demoDomain))
  /\ exists r,
      handleRequest
        (demoEnv [demoLink 1 5 1 (Some 3) (Some "secret1") (Some 7)
                           None None None]) demoNow
        (demoRequest "abc123" (Some "secret1") None None)
      = Some (r, [RecordVisit
                    (blockedEvent
                       (baseEventOf
                          (demoRequest "abc123" (Some "secret1") None None)
                          demoNow
                          (joinRow (demoLink 1 5 1 (Some 3) (Some "secret1")
                                             (Some 7) None None None)
                                   demoDomain))
                       "limit" 410)])
      /\ statusOf r = 410.
Proof.
  split; [split; [reflexivity | split; [discriminate | discriminate]]|].
  destruct (X6_visit_limit_reached
              (demoEnv [demoLink 1 5 1 (Some 3) (Some "secret1") (Some 7)
                                 None None None]) demoNow
              (demoRequest "abc123" (Some "secret1") None None)
              (joinRow (demoLink 1 5 1 (Some 3) (Some "secret1") (Some 7)
                                 None None None) demoDomain)
              7 eq_refl eq_refl eq_refl ltac:(discriminate) ltac:(discriminate))
    as (r & E & S & _).
  exists r. split; [exact E | exact S].
Defined.

Lemma runTasks_app db ts us : runTasks db (ts ++ us) = runTasks (runTasks db ts) us.
Proof. unfold runTasks. apply fold_left_app. Qed.

Lemma touchRow_clicks now linkId sl :
  Links.total_clicks sl <= Links.total_clicks (touchRow now linkId sl)
  /\ Links.id (touchRow now linkId sl) = Links.id sl
  /\ Links.code (touchRow now linkId sl) = Links.code sl
  /\ Links.target_url (touchRow now linkId sl) = Links.target_url sl.
Proof.
  unfold touchRow. destruct (Links.id sl =? linkId); simpl; repeat split; lia.
Qed.

(** X7: whatever work is scheduled, running it never changes the
    domains, the templates or the assets, never removes or rewrites a
    row of the visit log (the old log is a prefix of the new one), keeps
    the number and the order of the link rows, and never lowers a
    click counter nor changes a link's id, code or target. *)
Theorem X7_runTasks_preserves db ts :
  domains (runTasks db ts) = domains db
  /\ redirect_templates (runTasks db ts) = redirect_templates db
  /\ template_assets (runTasks db ts) = template_assets db
  /\ (exists added, link_visit_events (runTasks db ts)
                    = (link_visit_events db ++ added)%list
                    /\ added = recordedVisits ts)
  /\ Forall2 (fun old new =>
                Links.id new = Links.id old
                /\ Links.code new = Links.code old
                /\ Links.target_url new = Links.target_url old
                /\ Links.total_clicks old <= Links.total_clicks new)
             (short_links db) (short_links (runTasks db ts)).
Proof.
  split; [|split; [|split; [|split]]].
  - unfold runTasks. revert db. induction ts as [|t ts IH]; intros db;
      [reflexivity|]. simpl. rewrite IH. now destruct t.
  - unfold runTasks. revert db. induction ts as [|t ts IH]; intros db;
      [reflexivity|]. simpl. rewrite IH. now destruct t.
  - unfold runTasks. revert db. induction ts as [|t ts IH]; intros db;
      [reflexivity|]. simpl. rewrite IH. now destruct t.
  - eexists. split; [apply runTasks_visits | reflexivity].
  - unfold runTasks. revert db. induction ts as [|t ts IH]; intros db.
    + simpl. induction (short_links db); constructor; auto.
      repeat split; lia.
    + simpl. specialize (IH (runTask db t)).
      assert (Step : Forall2 (fun old new =>
                                Links.id new = Links.id old
                                /\ Links.code new = Links.code old
                                /\ Links.target_url new = Links.target_url old
                                /\ Links.total_clicks old <= Links.total_clicks new)
                             (short_links db) (short_links (runTask db t))).
      { destruct t as [e|n i]; simpl.
        - induction (short_links db); constructor; auto. repeat split; lia.
        - induction (short_links db) as [|sl sls IHs]; constructor; auto.
          destruct (touchRow_clicks n i sl) as (A & B & C & D). auto. }
      revert Step IH.
      generalize (short_links db) (short_links (runTask db t))
                 (short_links (fold_left runTask ts (runTask db t))).
      intros l1 l2 l3 H12. revert l3.
      induction H12 as [|a b l1 l2 Hab _ IHl]; intros l3 H23;
        inversion H23 as [|b' c l2' l3' Hbc Hrest]; subst; constructor.
      * destruct Hab as (A1 & A2 & A3 & A4), Hbc as (B1 & B2 & B3 & B4).
        repeat split; try congruence. lia.
      * now apply IHl.
Qed.

(** X8: a request whose link is found and whose resolution reaches an
    outcome either takes the allow path, and then the scheduled work is
    the unblocked visit and one click on that link, and [c.redirect] is
    called with the link's target and code, which gives the redirect
    whenever the target is a valid header value; or it is answered by
    one of the checks, and then the response is no redirect, the only
    scheduled work is one blocked visit event, and running it leaves
    every row of [short_links] as it was. So every redirect has its
    click counted, and a click is counted on the allow path only. *)
Theorem X8_clicks_only_on_allow_path env now req l out :
  findShortLink (shorturl env) (param_code req)
                (stringOrEmpty (header_host req)) = Some l ->
  handleRequest env now req = Some out ->
  (out = (redirect (target_url l) (redirect_http_code l),
          [RecordVisit (baseEventOf req now l); TouchLink now (id l)])
   /\ is_blocked (baseEventOf req now l) = 0
   /\ (validHeaderValue (target_url l) = true ->
       fst out = Redirect (target_url l) (redirect_http_code l))
   /\ short_links (runTasks (shorturl env) (snd out))
      = map (touchRow now (id l)) (short_links (shorturl env)))
  \/ (isRedirect (fst out) = false
      /\ (exists e, snd out = [RecordVisit e] /\ is_blocked e = 1)
      /\ short_links (runTasks (shorturl env) (snd out))
         = short_links (shorturl env)).
Proof.
  intros Hfind Hout.
  rewrite (handleRequest_found env now req l Hfind) in Hout.
  apply resolveLink_outcome in Hout.
  destruct Hout as [r H1 H2 H3 | r H1 H2 H3 H4 | r H1 H2 H3 H4
                    | r H1 H2 H3 H4 | html H1 H2 | H1 H2];
    [right; simpl; repeat split; eauto..|left].
  unfold allowVisit. split; [reflexivity|].
  split; [apply baseEventOf_unblocked|].
  split; [|reflexivity].
  intros Hsafe. simpl. now apply redirect_valid.
Qed.

Lemma X8_clicks_only_on_allow_path_witness :
  (findShortLink (shorturl (demoEnv [protectedLink])) "abc123" "x.com"
   = Some (joinRow protectedLink demoDomain)
   /\ handleRequest (demoEnv [protectedLink]) demoNow
                    (demoRequest "abc123" None None None)
      = Some (Html "<form data-error='false'></form>" 200,
              [RecordVisit
                 (blockedEvent
                    (baseEventOf (demoRequest "abc123" None None None) demoNow
                                 (joinRow protectedLink demoDomain))
                    "password" 401)]))
  /\ short_links
       (runTasks (shorturl (demoEnv [protectedLink]))
          [RecordVisit
             (blockedEvent
                (baseEventOf (demoRequest "abc123" None None None) demoNow
                             (joinRow protectedLink demoDomain))
                "password" 401)])
     = [protectedLink].
Proof.
  split; [split; reflexivity|].
  destruct (X8_clicks_only_on_allow_path
              (demoEnv [protectedLink]) demoNow
              (demoRequest "abc123" None None None)
              (joinRow protectedLink demoDomain)
              (Html "<form data-error='false'></form>" 200,
               [RecordVisit
                  (blockedEvent
                     (baseEventOf (demoRequest "abc123" None None None) demoNow
                                  (joinRow protectedLink demoDomain))
                     "password" 401)])
              eq_refl eq_refl) as [(E & _) | (_ & _ & S)].
  - discriminate E.
  - exact S.
Defined.

(** ** The interstitial check, further cases *)

Lemma reaches_interstitialStep env now req l tid :
  reachesInterstitialCheck env now req l ->
  truthyNum (use_interstitial l) = true ->
  template_id l = Some tid ->
  truthyNum tid = true ->
  handleRequest env now req
  = interstitialStep env now (stringOrEmpty (header_host req)) (param_code req)
                     (orNull (query_t req)) (orNull (query_s req)) l
                     (baseEventOf req now l) tid.
Proof.
  intros Hreach Huse Htid Htruthy.
  rewrite (resolveLink_reaches_interstitial env now req l Hreach).
  now rewrite Htid, Huse, Htruthy.
Qed.

(** X9: when [force_interstitial] is not 1, a request that reaches the
    interstitial check with any non-empty [t] parameter is redirected
    through the allow path at once, the target being a valid header
    value: neither the value of [t], nor [s], nor the signing secret,
    nor the state of the interstitial template is looked at. *)
Theorem X9_unforced_timestamp_suffices env now req l tid ts :
  reachesInterstitialCheck env now req l ->
  truthyNum (use_interstitial l) = true ->
  template_id l = Some tid ->
  truthyNum tid = true ->
  force_interstitial l <> 1 ->
  orNull (query_t req) = Some ts ->
  validHeaderValue (target_url l) = true ->
  handleRequest env now req
  = Some (Redirect (target_url l) (redirect_http_code l),
          [RecordVisit (baseEventOf req now l); TouchLink now (id l)]).
Proof.
  intros Hreach Huse Htid Htruthy Hforce Hts Hsafe.
  rewrite (reaches_interstitialStep env now req l tid Hreach Huse Htid Htruthy).
  unfold interstitialStep. rewrite Hts.
  apply Z.eqb_neq in Hforce. rewrite Hforce. cbn [negb].
  unfold allowVisit. now rewrite (redirect_valid _ _ Hsafe).
Qed.

Lemma X9_unforced_timestamp_suffices_witness :
  (reachesInterstitialCheck
     (demoEnv [demoLink 1 5 0 (Some 4) None None None None None]) demoNow
     (demoRequest "abc123" None (Some "anything") (Some "bogus"))
     (joinRow (demoLink 1 5 0 (Some 4) None None None None None) demoDomain)
   /\ force_interstitial
        (joinRow (demoLink 1 5 0 (Some 4) None None None None None) demoDomain)
      <> 1
   /\ validHeaderValue
        (target_url (joinRow (demoLink 1 5 0 (Some 4) None None None None None)
                             demoDomain)) = true)
  /\ handleRequest
       (demoEnv [demoLink 1 5 0 (Some 4) None None None None None]) demoNow
       (demoRequest "abc123" None (Some "anything") (Some "bogus"))
     = Some (Redirect "https://dest.example" 302,
             [RecordVisit
                (baseEventOf
                   (demoRequest "abc123" None (Some "anything") (Some "bogus"))
                   demoNow
                   (joinRow (demoLink 1 5 0 (Some 4) None None None None None)
                            demoDomain));
              TouchLink demoNow 10]).
Proof.
  assert (R : reachesInterstitialCheck
                (demoEnv [demoLink 1 5 0 (Some 4) None None None None None])
                demoNow
                (demoRequest "abc123" None (Some "anything") (Some "bogus"))
                (joinRow (demoLink 1 5 0 (Some 4) None None None None None)
                         demoDomain))
    by (repeat split; reflexivity).
  split; [split; [exact R | split; [discriminate | reflexivity]]|].
  exact (X9_unforced_timestamp_suffices
           (demoEnv [demoLink 1 5 0 (Some 4) None None None None None]) demoNow
           (demoRequest "abc123" None (Some "anything") (Some "bogus"))
           (joinRow (demoLink 1 5 0 (Some 4) None None None None None) demoDomain)
           4 "anything" R eq_refl eq_refl eq_refl
           ltac:(discriminate) eq_refl eq_refl).
Defined.



(** X11: a ticket issued by the handler is honoured when it comes back in
    time: if [s] is the signature generated for the time [issued], the
    request's host and its code, and the request carries [t] as the
    decimal text of [issued] together with that [s], then, on reaching
    the interstitial check at a time [now] with
    [interstitial_delay - 1 <= now - issued <= 1800], the request is
    redirected through the allow path, whether or not verification is
    forced and whether or not the template still loads. The numbers of
    the check are safe integers and the target is a valid header
    value. *)
Theorem X11_issued_ticket_is_honoured env now req l tid issued sg :
  reachesInterstitialCheck env now req l ->
  truthyNum (use_interstitial l) = true ->
  template_id l = Some tid ->
  truthyNum tid = true ->
  generateHmacSignature (JWT_SECRET env) (Int issued)
    (stringOrEmpty (header_host req)) (param_code req) = Some sg ->
  query_t req = Some (numToString (Int issued)) ->
  query_s req = Some sg ->
  interstitial_delay l - 1 <= now - issued <= 1800 ->
  exactTicketArithmetic now (interstitial_delay l) (Int issued) = true ->
  validHeaderValue (target_url l) = true ->
  handleRequest env now req
  = Some (Redirect (target_url l) (redirect_http_code l),
          [RecordVisit (baseEventOf req now l); TouchLink now (id l)]).
Proof.
  intros Hreach Huse Htid Htruthy Hgen Ht Hsg Hwin _ Hsafe.
  rewrite (reaches_interstitialStep env now req l tid Hreach Huse Htid Htruthy).
  unfold interstitialStep, allowVisit.
  rewrite (redirect_valid _ _ Hsafe).
  rewrite Ht, Hsg, numToString_nonempty.
  destruct (signature_shape _ _ _ _ _ Hgen) as (_ & _ & Hne & _).
  rewrite Hne.
  destruct (negb (force_interstitial l =? 1)); [reflexivity|].
  rewrite parseInt_of_numToString.
  rewrite (proj2 (verify_iff_generated _ _ _ _ _) Hgen).
  assert (W : numGe (numSub (Int now) (Int issued))
                    (Int (interstitial_delay l - 1))
              && numLe (numSub (Int now) (Int issued)) (Int maxValiditySeconds)
              = true).
  { apply ticket_window. exists issued. now split. }
  now rewrite W.
Qed.

Lemma X11_issued_ticket_is_honoured_witness :
  (reachesInterstitialCheck (demoEnv [gatedLink]) demoNow
     (demoRequest "abc123" None (Some (numToString (Int 1700001990)))
                  (Some (demoTicket 1700001990)))
     (joinRow gatedLink demoDomain)
   /\ generateHmacSignature (JWT_SECRET (demoEnv [gatedLink])) (Int 1700001990)
        "x.com" "abc123" = Some (demoTicket 1700001990)
   /\ 5 - 1 <= demoNow - 1700001990 <= 1800
   /\ exactTicketArithmetic demoNow 5 (Int 1700001990) = true
   /\ validHeaderValue (target_url (joinRow gatedLink demoDomain)) = true)
  /\ handleRequest (demoEnv [gatedLink]) demoNow
       (demoRequest "abc123" None (Some (numToString (Int 1700001990)))
                    (Some (demoTicket 1700001990)))
     = Some (Redirect "https://dest.example" 302,
             [RecordVisit
                (baseEventOf
                   (demoRequest "abc123" None
                                (Some (numToString (Int 1700001990)))
                                (Some (demoTicket 1700001990)))
                   demoNow (joinRow gatedLink demoDomain));
              TouchLink demoNow 10]).
Proof.
  assert (R : reachesInterstitialCheck (demoEnv [gatedLink]) demoNow
                (demoRequest "abc123" None (Some (numToString (Int 1700001990)))
                             (Some (demoTicket 1700001990)))
                (joinRow gatedLink demoDomain))
    by (repeat split; reflexivity).
  assert (G : generateHmacSignature (JWT_SECRET (demoEnv [gatedLink]))
                (Int 1700001990) "x.com" "abc123"
              = Some (demoTicket 1700001990)) by (vm_compute; reflexivity).
  assert (W : 5 - 1 <= demoNow - 1700001990 <= 1800) by (unfold demoNow; lia).
  split;
    [split; [exact R
            | split; [exact G
                     | split; [exact W | split; reflexivity]]]|].
  exact (X11_issued_ticket_is_honoured
           (demoEnv [gatedLink]) demoNow
           (demoRequest "abc123" None (Some (numToString (Int 1700001990)))
                        (Some (demoTicket 1700001990)))
           (joinRow gatedLink demoDomain) 3 1700001990 (demoTicket 1700001990)
           R eq_refl eq_refl eq_refl G eq_refl eq_refl W eq_refl eq_refl).
Defined.

(** X12: a request whose link is found, not expired, under its visit
    limit, with its password satisfied, and for which the interstitial
    does not apply ([use_interstitial] is 0, or the link has no template
    id, or the id 0), and whose target is a valid header value, is
    redirected to the link's target with the link's redirect code; the
    scheduled work appends the unblocked visit event
    and adds exactly one click, with the last access time, to every row
    with the link's id and to no other row. No signing secret is
    needed. *)
Theorem X12_plain_redirect env now req l :
  reachesInterstitialCheck env now req l ->
  (use_interstitial l = 0 \/ template_id l = None \/ template_id l = Some 0) ->
  validHeaderValue (target_url l) = true ->
  handleRequest env now req
  = Some (Redirect (target_url l) (redirect_http_code l),
          [RecordVisit (baseEventOf req now l); TouchLink now (id l)])
  /\ link_visit_events
       (runTasks (shorturl env)
                 [RecordVisit (baseEventOf req now l); TouchLink now (id l)])
     = (link_visit_events (shorturl env) ++ [baseEventOf req now l])%list
  /\ is_blocked (baseEventOf req now l) = 0
  /\ http_status (baseEventOf req now l) = redirect_http_code l
  /\ Forall2 (fun old new =>
                if Links.id old =? id l
                then Links.total_clicks new = Links.total_clicks old + 1
                     /\ Links.last_access_at new = Some now
                else new = old)
             (short_links (shorturl env))
             (short_links
                (runTasks (shorturl env)
                   [RecordVisit (baseEventOf req now l); TouchLink now (id l)])).
Proof.
  intros Hreach Hcase Hsafe.
  destruct (baseEventOf_unblocked req now l) as (B1 & _ & B3).
  split; [|split; [reflexivity | split; [exact B1 | split; [exact B3|]]]].
  - rewrite (resolveLink_reaches_interstitial env now req l Hreach).
    unfold allowVisit. rewrite (redirect_valid _ _ Hsafe).
    destruct Hcase as [H | [H | H]].
    + destruct (template_id l); [|reflexivity].
      unfold truthyNum. rewrite H. reflexivity.
    + rewrite H. reflexivity.
    + rewrite H. change (truthyNum 0) with false.
      rewrite andb_false_r. reflexivity.
  - cbn [runTasks fold_left runTask short_links].
    induction (short_links (shorturl env)) as [|sl sls IH]; constructor;
      [|exact IH].
    destruct (Links.id sl =? id l) eqn:E.
    + apply Z.eqb_eq in E. now apply touchRow_same.
    + apply Z.eqb_neq in E. now apply touchRow_other.
Qed.

Lemma X12_plain_redirect_witness :
  (reachesInterstitialCheck (demoEnv [protectedLink]) demoNow
     (demoRequest "abc123" (Some "secret1") None None)
     (joinRow protectedLink demoDomain)
   /\ use_interstitial (joinRow protectedLink demoDomain) = 0
   /\ validHeaderValue (target_url (joinRow protectedLink demoDomain)) = true)
  /\ handleRequest (demoEnv [protectedLink]) demoNow
                   (demoRequest "abc123" (Some "secret1") None None)
     = Some (Redirect "https://dest.example" 302,
             [RecordVisit
                (baseEventOf (demoRequest "abc123" (Some "secret1") None None)
                             demoNow (joinRow protectedLink demoDomain));
              TouchLink demoNow 10]).
Proof.
  assert (R : reachesInterstitialCheck (demoEnv [protectedLink]) demoNow
                (demoRequest "abc123" (Some "secret1") None None)
                (joinRow protectedLink demoDomain))
    by (repeat split; reflexivity).
  split; [split; [exact R | split; reflexivity]|].
  exact (proj1 (X12_plain_redirect
                  (demoEnv [protectedLink]) demoNow
                  (demoRequest "abc123" (Some "secret1") None None)
                  (joinRow protectedLink demoDomain) R (or_introl eq_refl)
                  eq_refl)).
Defined.

(** ** Templates and substitution *)

Lemma orNull_Some x s : orNull x = Some s -> x = Some s /\ s <> "".
Proof.
  unfold orNull. destruct x as [y|]; [|discriminate].
  destruct (String.eqb y "") eqn:E; [discriminate|].
  intros H. injection H as ->. apply String.eqb_neq in E. now split.
Qed.

(** X13: [getTemplateContent] returns content only for a template row
    with the requested id that is active; the content is the stored text
    after the replacements (for keys of letters, digits, underscores and
    hyphens, whose patterns are literal), where the stored text is the non-empty inline
    HTML of a template of type 0, or, for a template of type 1 with a
    main file and an asset prefix, the content of the asset with that
    prefix and file name, read from the database (storage type 0) or
    from the R2 bucket under the asset's key (storage type 1, bucket
    bound). *)
Theorem X13_template_content_sound db tid repl r2 html :
  plainKeys repl = true ->
  getTemplateContent db tid repl r2 = Some html ->
  exists t text,
    In t (redirect_templates db)
    /\ Templates.id t = tid
    /\ Templates.is_active t = 1
    /\ html = applyReplacements repl text
    /\ ((Templates.content_type t = 0
         /\ Templates.html_content t = Some text /\ text <> "")
        \/ (Templates.content_type t = 1
            /\ exists prefix file a,
                Templates.asset_prefix t = Some prefix /\ prefix <> ""
                /\ Templates.main_file t = Some file /\ file <> ""
                /\ In a (template_assets db)
                /\ Assets.asset_prefix a = prefix
                /\ Assets.filename a = file
                /\ ((Assets.storage_type a = 0 /\ Assets.content a = Some text)
                    \/ (Assets.storage_type a = 1
                        /\ exists key bucket,
                            Assets.r2_key a = Some key /\ key <> ""
                            /\ r2 = Some bucket
                            /\ r2Get bucket key = Some text)))).
Proof.
  intros _.
  unfold getTemplateContent, loadTemplateText, findActiveTemplate, findAsset.
  destruct (find _ (redirect_templates db)) as [t|] eqn:Ft; [|discriminate].
  apply find_some in Ft. destruct Ft as [Hin Hc].
  apply andb_prop in Hc. destruct Hc as [Hid Hact].
  apply Z.eqb_eq in Hid, Hact.
  destruct (Templates.content_type t =? 0) eqn:C0.
  { apply Z.eqb_eq in C0.
    destruct (orNull (Templates.html_content t)) as [text|] eqn:Hh;
      [|discriminate].
    apply orNull_Some in Hh. destruct Hh as [Hh Hne].
    intros E. injection E as <-. exists t, text. auto 10. }
  destruct (Templates.content_type t =? 1) eqn:C1; [|discriminate].
  apply Z.eqb_eq in C1.
  destruct (orNull (Templates.main_file t)) as [file|] eqn:Hf; [|discriminate].
  destruct (orNull (Templates.asset_prefix t)) as [prefix|] eqn:Hp;
    [|discriminate].
  apply orNull_Some in Hf, Hp. destruct Hf as [Hf Hfne], Hp as [Hp Hpne].
  destruct (find _ (template_assets db)) as [a|] eqn:Fa; [|discriminate].
  apply find_some in Fa. destruct Fa as [Hina Hca].
  apply andb_prop in Hca. destruct Hca as [Hap Hfn].
  apply String.eqb_eq in Hap, Hfn.
  destruct (Assets.storage_type a =? 0) eqn:S0.
  { apply Z.eqb_eq in S0.
    destruct (Assets.content a) as [text|] eqn:Hcont; [|discriminate].
    intros E. injection E as <-.
    exists t, text. repeat split; try assumption.
    right. split; [exact C1|]. exists prefix, file, a.
    repeat split; try assumption. left. now split. }
  destruct (Assets.storage_type a =? 1) eqn:S1; [|discriminate].
  apply Z.eqb_eq in S1.
  destruct (orNull (Assets.r2_key a)) as [key|] eqn:Hk; [|discriminate].
  apply orNull_Some in Hk. destruct Hk as [Hk Hkne].
  destruct r2 as [bucket|]; [|discriminate].
  destruct (r2Get bucket key) as [text|] eqn:Hg; [|discriminate].
  intros E. injection E as <-.
  exists t, text. repeat split; try assumption.
  right. split; [exact C1|]. exists prefix, file, a.
  repeat split; try assumption. right. split; [exact S1|].
  exists key, bucket. now repeat split.
Qed.

Lemma X13_template_content_sound_witness :
  getTemplateContent (shorturl (demoEnv [])) 2 [("errorpassword", "true")] None
  = Some "<form data-error='true'></form>"
  /\ exists t text,
      In t demoTemplates /\ Templates.id t = 2 /\ Templates.is_active t = 1
      /\ "<form data-error='true'></form>"
         = applyReplacements [("errorpassword", "true")] text.
Proof.
  split; [reflexivity|].
  destruct (X13_template_content_sound
              (shorturl (demoEnv [])) 2 [("errorpassword", "true")] None
              "<form data-error='true'></form>" eq_refl eq_refl)
    as (t & text & H1 & H2 & H3 & H4 & _).
  exists t, text. now repeat split.
Defined.

Lemma replaceFrom_absent pat repl s :
  occursIn pat s = false ->
  forall before, replaceFrom pat repl before s 0 = s.
Proof.
  induction s as [|ch rest IH]; intros Hocc before; [reflexivity|].
  cbn [occursIn] in Hocc. apply orb_false_iff in Hocc.
  destruct Hocc as [Hp Hrest].
  cbn [replaceFrom]. rewrite Hp. now rewrite IH.
Qed.

(** X14: replacements whose placeholders do not occur in a text leave it
    unchanged, whatever the replacement values are: a template without
    [{{key}}] for the keys supplied (keys of letters, digits,
    underscores and hyphens) is served as stored. *)
Theorem X14_absent_placeholders_unchanged replacements html :
  plainKeys replacements = true ->
  (forall kv, In kv replacements ->
              occursIn ("{{" ++ fst kv ++ "}}") html = false) ->
  applyReplacements replacements html = html.
Proof.
  intros _. unfold applyReplacements.
  induction replacements as [|kv rs IH]; intros H; [reflexivity|].
  cbn [fold_left]. unfold replaceAll at 2.
  rewrite replaceFrom_absent by (apply H; now left).
  apply IH. intros kv' Hin. apply H. now right.
Qed.

Lemma X14_absent_placeholders_unchanged_witness :
  applyReplacements [("delay", "5"); ("sign", "$&")] "<h1>retired</h1>"
  = "<h1>retired</h1>".
Proof.
  apply X14_absent_placeholders_unchanged; [reflexivity|].
  intros kv [<-|[<-|[]]]; reflexivity.
Defined.

Lemma expandReplacement_literal repl matched before after :
  noDollar repl = true ->
  expandReplacement repl matched before after = repl.
Proof.
  induction repl as [|d tail IH]; [reflexivity|].
  cbn [noDollar]. intros H. apply andb_prop in H. destruct H as [Hd Ht].
  apply negb_true_iff in Hd.
  cbn [expandReplacement]. rewrite Hd. now rewrite IH.
Qed.

Lemma replaceFrom_before pat repl s :
  noDollar repl = true ->
  forall b1 b2 k, replaceFrom pat repl b1 s k = replaceFrom pat repl b2 s k.
Proof.
  intros Hrepl. induction s as [|ch rest IH]; intros b1 b2 k; [reflexivity|].
  cbn [replaceFrom]. destruct k as [|k]; [|apply IH].
  destruct (isPrefixOf pat (String ch rest)).
  - rewrite !(expandReplacement_literal _ _ _ _ Hrepl). f_equal. apply IH.
  - f_equal. apply IH.
Qed.

Lemma replaceFrom_skip pat repl s :
  noDollar repl = true ->
  forall b k, replaceFrom pat repl b s k
              = replaceFrom pat repl b (dropChars k s) 0.
Proof.
  intros Hrepl. induction s as [|ch rest IH]; intros b k.
  - destruct k; reflexivity.
  - destruct k as [|k]; [reflexivity|].
    cbn [replaceFrom dropChars]. rewrite IH.
    apply (replaceFrom_before pat repl _ Hrepl).
Qed.

(** X15: with a replacement value that has no dollar sign, the
    substitution is the plain leftmost, non-overlapping replacement of a
    non-empty pattern: the empty text stays empty; where the text starts
    with the pattern, the value is written and the substitution goes on
    after the pattern; elsewhere the first character is kept and the
    substitution goes on after it. The text before and after a match has
    no influence on what is written. *)
Theorem X15_literal_replacement pat value :
  pat <> "" ->
  noDollar value = true ->
  replaceAll pat value "" = ""
  /\ (forall s, isPrefixOf pat s = true ->
                replaceAll pat value s
                = value ++ replaceAll pat value (dropChars (String.length pat) s))
  /\ (forall ch rest,
         isPrefixOf pat (String ch rest) = false ->
         replaceAll pat value (String ch rest)
         = String ch (replaceAll pat value rest)).
Proof.
  intros Hpat Hval. unfold replaceAll.
  split; [reflexivity|]. split.
  - intros s Hp. destruct s as [|ch rest].
    + destruct pat; [contradiction | discriminate Hp].
    + cbn [replaceFrom]. rewrite Hp.
      rewrite (expandReplacement_literal _ _ _ _ Hval). f_equal.
      rewrite (replaceFrom_skip pat value rest Hval).
      destruct pat as [|p0 pat']; [contradiction|].
      cbn [String.length dropChars Nat.sub]. rewrite Nat.sub_0_r.
      now apply replaceFrom_before.
  - intros ch rest Hp. cbn [replaceFrom]. rewrite Hp. f_equal.
    now apply replaceFrom_before.
Qed.

Lemma X15_literal_replacement_witness :
  ("{{delay}}" <> "" /\ noDollar "5" = true)
  /\ replaceAll "{{delay}}" "5" "{{delay}}s, {{delay}}"
     = "5" ++ replaceAll "{{delay}}" "5" "s, {{delay}}".
Proof.
  split; [split; [discriminate | reflexivity]|].
  exact (proj1 (proj2 (X15_literal_replacement "{{delay}}" "5"
                         ltac:(discriminate) eq_refl))
               "{{delay}}s, {{delay}}" eq_refl).
Defined.

Lemma string_of_uint_noDollar d : noDollar (NilEmpty.string_of_uint d) = true.
Proof.
  induction d; cbn [NilEmpty.string_of_uint noDollar]; [reflexivity|..];
    rewrite IHd; reflexivity.
Qed.

Lemma numToString_noDollar n : noDollar (numToString n) = true.
Proof.
  destruct n as [|z]; [reflexivity|].
  unfold numToString, Z.to_int.
  destruct z; cbn [NilEmpty.string_of_int noDollar];
    rewrite ?string_of_uint_noDollar; reflexivity.
Qed.

(** X16: the three values that the handler substitutes into the
    interstitial page (the link's delay, the current time and the fresh
    signature) never contain a dollar sign, so [replace] writes each of
    them at every match exactly as it is, whatever the matched text and
    the text around it are, for every link, time, secret, host and
    code. *)
Theorem X16_interstitial_values_verbatim secret delay now h c sig :
  generateHmacSignature secret (Int now) h c = Some sig ->
  forall matched before after,
    expandReplacement (numToString (Int delay)) matched before after
    = numToString (Int delay)
    /\ expandReplacement (numToString (Int now)) matched before after
       = numToString (Int now)
    /\ expandReplacement sig matched before after = sig.
Proof.
  intros Hgen matched before after.
  destruct (signature_shape _ _ _ _ _ Hgen) as (_ & _ & _ & Hsig).
  split; [apply expandReplacement_literal, numToString_noDollar|].
  split; [apply expandReplacement_literal, numToString_noDollar|].
  now apply expandReplacement_literal.
Qed.

Lemma X16_interstitial_values_verbatim_witness :
  generateHmacSignature "S3cret-key!" (Int demoNow) "x.com" "abc123"
  = Some (demoTicket demoNow)
  /\ expandReplacement (demoTicket demoNow) "{{sign}}" "<a href='?s=" "'>go</a>"
     = demoTicket demoNow.
Proof.
  assert (G : generateHmacSignature "S3cret-key!" (Int demoNow) "x.com" "abc123"
              = Some (demoTicket demoNow)) by (vm_compute; reflexivity).
  split; [exact G|].
  exact (proj2 (proj2 (X16_interstitial_values_verbatim
                         "S3cret-key!" 5 demoNow "x.com" "abc123"
                         (demoTicket demoNow) G
                         "{{sign}}" "<a href='?s=" "'>go</a>"))).
Defined.

(** ** The visit event *)

Lemma append_nonempty a b : a <> "" -> a ++ b <> "".
Proof. destruct a; [contradiction | discriminate]. Qed.

Lemma nameWithVersion_nonempty name version :
  nameWithVersion name version <> ""
  /\ (orNull name = None -> nameWithVersion name version = "unknown").
Proof.
  unfold nameWithVersion.
  destruct (orNull name) as [n|] eqn:E.
  - apply orNull_Some in E. destruct E as [_ Hne].
    split; [now apply append_nonempty | discriminate].
  - split; [discriminate | reflexivity].
Qed.

(** X17: the device type, the operating system and the browser that
    [parseUserAgent] reports are never empty: a part that the parser
    leaves out is reported as [unknown], and without a [User-Agent]
    header all three are [unknown], whatever the parser returns; so is
    every visit event the handler builds. *)
Theorem X17_user_agent_never_empty ua result req now l :
  (let '(d, o, b) := parseUserAgent ua result in
   d <> "" /\ o <> "" /\ b <> "")
  /\ (orNull ua = None ->
      parseUserAgent ua result = ("unknown", "unknown", "unknown"))
  /\ (exists d o b,
         device_type (baseEventOf req now l) = Some d /\ d <> ""
         /\ os (baseEventOf req now l) = Some o /\ o <> ""
         /\ browser (baseEventOf req now l) = Some b /\ b <> "").
Proof.
  assert (P : forall u r,
             let '(d, o, b) := parseUserAgent u r in
             d <> "" /\ o <> "" /\ b <> "").
  { intros u r. unfold parseUserAgent.
    destruct (orNull u); [|repeat split; discriminate].
    split; [|split; apply nameWithVersion_nonempty].
    destruct (orNull (ua_device_type r)) as [t|] eqn:E; [|discriminate].
    now apply orNull_Some in E. }
  split; [apply P|]. split.
  - unfold parseUserAgent. now intros ->.
  - specialize (P (orNull (header_user_agent req)) (ua_result req)).
    unfold baseEventOf.
    destruct (parseUserAgent _ _) as [[d o] b]. destruct P as (Hd & Ho & Hb).
    exists d, o, b. now repeat split.
Qed.

(** ** Generated short codes and checksums *)

Lemma codeChar_of_byte b :
  isByte b ->
  exists c, String.get (Z.to_nat (b mod Z.of_nat (String.length codeChars)))
                       codeChars = Some c
            /\ isCodeChar c = true
            /\ negb (codeOf c =? 95) && negb (codeOf c =? 45) = true.
Proof.
  intros Hb. change (Z.of_nat (String.length codeChars)) with 62.
  assert (Hm : 0 <= b mod 62 < 62) by (apply Z.mod_pos_bound; lia).
  assert (E : exists i, (i < 62)%nat /\ b mod 62 = Z.of_nat i)
    by (exists (Z.to_nat (b mod 62)); lia).
  destruct E as (i & Hi & ->). rewrite Nat2Z.id.
  do 62 (destruct i as [|i]; [eexists; repeat split; reflexivity|]). lia.
Qed.

(** X18: for every content of the random byte array, [generateCode]
    returns one character per byte, each a letter or a digit; so a
    generated code of positive length always passes the format check
    that [POST /create] applies to a custom code, and never contains a
    hyphen or an underscore. *)
Theorem X18_generated_code_shape randomValues :
  Forall isByte randomValues ->
  String.length (generateCode randomValues) = List.length randomValues
  /\ allChars isCodeChar (generateCode randomValues) = true
  /\ allChars (fun c => negb (codeOf c =? 95) && negb (codeOf c =? 45))
              (generateCode randomValues) = true
  /\ (randomValues <> [] -> validCodeFormat (generateCode randomValues) = true).
Proof.
  intros H.
  assert (A : String.length (generateCode randomValues) = List.length randomValues
              /\ allChars isCodeChar (generateCode randomValues) = true
              /\ allChars (fun c => negb (codeOf c =? 95) && negb (codeOf c =? 45))
                          (generateCode randomValues) = true).
  { induction H as [|b rest Hb _ (IH1 & IH2 & IH3)]; [now repeat split|].
    destruct (codeChar_of_byte b Hb) as (c & Hc & Hcls & Hno).
    cbn [generateCode]. rewrite Hc.
    cbn [String.length allChars List.length].
    rewrite IH1, IH2, IH3, Hcls, Hno. now repeat split. }
  destruct A as (A1 & A2 & A3). repeat split; try assumption.
  intros Hne. unfold validCodeFormat. rewrite A2, andb_true_r.
  destruct randomValues as [|b rest]; [contradiction|].
  destruct (generateCode (b :: rest)); [discriminate A1 | reflexivity].
Qed.

Lemma X18_generated_code_shape_witness :
  Forall isByte [0; 61; 62; 255; 128; 7]
  /\ String.length (generateCode [0; 61; 62; 255; 128; 7]) = 6%nat.
Proof.
  assert (F : Forall isByte [0; 61; 62; 255; 128; 7])
    by (repeat constructor; unfold isByte; lia).
  split; [exact F|].
  exact (proj1 (X18_generated_code_shape [0; 61; 62; 255; 128; 7] F)).
Defined.

(** X19: the mapping from a random byte to a character is not uniform:
    of the 256 byte values, five give each of the first eight characters
    of the alphabet ([A] to [H]) and four give each of the other 54. *)
Theorem X19_generated_code_bias c :
  In c (list_ascii_of_string codeChars) ->
  List.length (filter (fun b => String.eqb (generateCode [b]) (String c ""))
                      allByteValues)
  = if (65 <=? codeOf c) && (codeOf c <=? 72) then 5%nat else 4%nat.
Proof.
  assert (All : forallb
                  (fun c =>
                     Nat.eqb
                       (List.length
                          (filter (fun b => String.eqb (generateCode [b])
                                                       (String c ""))
                                  allByteValues))
                       (if (65 <=? codeOf c) && (codeOf c <=? 72)
                        then 5%nat else 4%nat))
                  (list_ascii_of_string codeChars) = true)
    by (vm_compute; reflexivity).
  intros Hin. rewrite forallb_forall in All.
  now apply Nat.eqb_eq, All.
Qed.

Lemma X19_generated_code_bias_witness :
  List.length (filter (fun b => String.eqb (generateCode [b]) "A") allByteValues)
  = 5%nat
  /\ List.length (filter (fun b => String.eqb (generateCode [b]) "9")
                         allByteValues) = 4%nat.
Proof.
  split.
  - exact (X19_generated_code_bias "A"%char ltac:(vm_compute; tauto)).
  - exact (X19_generated_code_bias "9"%char ltac:(vm_compute; tauto)).
Defined.

Lemma autoCodeLoop_spec db dom draw fuel a code :
  (fuel + a = 10)%nat -> (0 < fuel)%nat ->
  autoCodeLoop fuel db dom draw a = Some code
  <-> exists k, (a <= k < 10)%nat
                /\ code = generateCode (draw k)
                /\ codeExists db dom code = false
                /\ forall j, (a <= j < k)%nat ->
                             codeExists db dom (generateCode (draw j)) = true.
Proof.
  revert a. induction fuel as [|fuel IH]; intros a Hsum Hpos; [lia|].
  cbn [autoCodeLoop].
  destruct (codeExists db dom (generateCode (draw a))) eqn:E; cbn [negb].
  - destruct (S a <? 10)%nat eqn:Hlt.
    + apply Nat.ltb_lt in Hlt.
      rewrite (IH (S a)) by lia. split.
      * intros (k & Hk & Hc & Hf & Hprev). exists k.
        repeat split; try assumption; try lia.
        intros j Hj. destruct (Nat.eq_dec j a) as [->|Hne]; [exact E|].
        apply Hprev. lia.
      * intros (k & Hk & Hc & Hf & Hprev).
        assert (k <> a) by (intros ->; rewrite <- Hc in E; congruence).
        exists k. repeat split; try assumption; try lia.
        intros j Hj. apply Hprev. lia.
    + apply Nat.ltb_ge in Hlt. split; [discriminate|].
      intros (k & Hk & Hc & Hf & Hprev).
      assert (k = a) by lia. subst k. rewrite <- Hc in E. congruence.
  - split.
    + intros H. injection H as <-. exists a.
      repeat split; try assumption; try lia.
    + intros (k & Hk & Hc & Hf & Hprev).
      destruct (Nat.eq_dec k a) as [->|Hne]; [now rewrite Hc|].
      rewrite (Hprev a) in E by lia. discriminate E.
Qed.

Lemma codeExists_false db dom code :
  codeExists db dom code = false
  <-> (forall sl, In sl (short_links db) -> Links.domain_id sl = dom ->
                  Links.code sl <> code).
Proof.
  unfold codeExists. split.
  - intros H sl Hin Hd Hc.
    assert (T : existsb (fun sl => (Links.domain_id sl =? dom)
                                   && String.eqb (Links.code sl) code)
                        (short_links db) = true).
    { apply existsb_exists. exists sl. split; [exact Hin|].
      now rewrite Hd, Hc, Z.eqb_refl, String.eqb_refl. }
    congruence.
  - intros H.
    destruct (existsb _ (short_links db)) eqn:E; [|reflexivity].
    apply existsb_exists in E. destruct E as (sl & Hin & Hc).
    apply andb_prop in Hc. destruct Hc as [Hd Hc].
    apply Z.eqb_eq in Hd. apply String.eqb_eq in Hc.
    now destruct (H sl Hin Hd).
Qed.

(** X20: the code generation loop of [POST /create] returns the code of
    the first of its at most ten draws that no row of the domain carries,
    deleted rows included, so the code it returns is new for the domain;
    it gives up exactly when the codes of all ten draws are taken. *)
Theorem X20_generated_code_is_new db dom draw :
  (forall code,
      autoCode db dom draw = Some code
      <-> exists k, (k < 10)%nat
                    /\ code = generateCode (draw k)
                    /\ (forall sl, In sl (short_links db) ->
                                   Links.domain_id sl = dom ->
                                   Links.code sl <> code)
                    /\ forall j, (j < k)%nat ->
                                 codeExists db dom (generateCode (draw j)) = true)
  /\ (autoCode db dom draw = None
      <-> forall j, (j < 10)%nat ->
                    codeExists db dom (generateCode (draw j)) = true).
Proof.
  assert (S : forall code,
             autoCode db dom draw = Some code
             <-> exists k, (k < 10)%nat
                           /\ code = generateCode (draw k)
                           /\ codeExists db dom code = false
                           /\ forall j, (j < k)%nat ->
                                        codeExists db dom (generateCode (draw j))
                                        = true).
  { intros code. unfold autoCode.
    rewrite (autoCodeLoop_spec db dom draw 10 0 code) by lia.
    split; intros (k & Hk & Hc & Hf & Hprev); exists k;
      repeat split; try assumption; try lia;
      intros j Hj; apply Hprev; lia. }
  split.
  - intros code. rewrite S. split; intros (k & Hk & Hc & Hf & Hprev);
      exists k; repeat split; try assumption; now apply codeExists_false.
  - split.
    + intros HN j Hj.
      destruct (codeExists db dom (generateCode (draw j))) eqn:E; [reflexivity|].
      exfalso.
      assert (Ex : exists k, (k <= j)%nat
                             /\ codeExists db dom (generateCode (draw k)) = false
                             /\ forall i, (i < k)%nat ->
                                          codeExists db dom (generateCode (draw i))
                                          = true).
      { clear Hj HN. revert E. induction j as [j IHj] using lt_wf_ind. intros E.
        destruct (forallb (fun i => codeExists db dom (generateCode (draw i)))
                          (seq 0 j)) eqn:F.
        - exists j. repeat split; [lia | exact E|].
          intros i Hi. rewrite forallb_forall in F. apply F, in_seq. lia.
        - assert (Hex : exists i, In i (seq 0 j)
                                  /\ codeExists db dom (generateCode (draw i))
                                     = false).
          { clear -F. induction (seq 0 j) as [|x xs IHx]; [discriminate F|].
            cbn [forallb] in F. apply andb_false_iff in F.
            destruct F as [F|F]; [exists x; split; [now left | exact F]|].
            destruct (IHx F) as (i & Hi & Hf). exists i. split; [now right|exact Hf]. }
          destruct Hex as (i & Hi & Hf). apply in_seq in Hi.
          destruct (IHj i ltac:(lia) Hf) as (k & Hk & Hkf & Hprev).
          exists k. repeat split; [lia | exact Hkf | exact Hprev]. }
      destruct Ex as (k & Hk & Hkf & Hprev).
      assert (Some (generateCode (draw k)) = None) as Contra.
      { rewrite <- HN. symmetry. apply S. exists k.
        repeat split; [lia | exact Hkf | exact Hprev]. }
      discriminate Contra.
    + intros Hall.
      destruct (autoCode db dom draw) as [code|]; [|reflexivity].
      destruct (proj1 (S code) eq_refl) as (k & Hk & Hc & Hf & _).
      rewrite Hc, (Hall k Hk) in Hf. discriminate Hf.
Qed.

(** X21: the checksum [sha256Hex] of any data is 64 lower-case
    hexadecimal characters, and two pieces of data have the same
    checksum exactly when their SHA-256 digests are equal (the hex
    encoding loses nothing); the checksum of the bytes of [abc] is the
    FIPS 180-4 test value. *)
Theorem X21_checksum_format data other :
  String.length (sha256Hex data) = 64%nat
  /\ allChars isLowerHex (sha256Hex data) = true
  /\ (sha256Hex data = sha256Hex other <-> sha256 data = sha256 other)
  /\ sha256Hex (textEncode "abc")
     = "ba7816bf8f01cfea414140de5dae2223b00361a396177a9cb410ff61f20015ad".
Proof.
  unfold sha256Hex.
  destruct (hexOfBytes_format _ (sha256_isByte data)) as [Hl Hc].
  rewrite sha256_length in Hl.
  split; [exact Hl|]. split; [exact Hc|]. split.
  - split; [|now intros ->].
    apply hexOfBytes_inj; apply sha256_isByte.
  - vm_compute. reflexivity.
Qed.

(** ** The MIME type of an asset *)

Lemma append_assoc_string (a b c : string) : (a ++ b) ++ c = a ++ (b ++ c).
Proof. induction a as [|x a IH]; [reflexivity|]. cbn [append]. now rewrite IH. Qed.

Lemma lastSegment_noDot s :
  noDot s = true -> forall acc, lastSegment acc s = acc ++ s.
Proof.
  induction s as [|c rest IH]; intros H acc.
  - clear. induction acc as [|x acc IHa]; [reflexivity|].
    cbn [append lastSegment] in *. now rewrite <- IHa.
  - cbn [noDot] in H. apply andb_prop in H. destruct H as [Hc Hr].
    apply negb_true_iff in Hc. cbn [lastSegment]. rewrite Hc.
    rewrite (IH Hr). now rewrite append_assoc_string.
Qed.

Lemma lastSegment_after_dot base rest :
  forall acc, lastSegment acc (base ++ String "." rest)
              = lastSegment EmptyString rest.
Proof.
  induction base as [|c base IH]; intros acc; cbn [append lastSegment].
  - reflexivity.
  - destruct (codeOf c =? 46); apply IH.
Qed.

Lemma lowerChar_facts c :
  lowerChar (lowerChar c) = lowerChar c
  /\ (codeOf (lowerChar c) =? 46) = (codeOf c =? 46).
Proof.
  destruct c as [[|] [|] [|] [|] [|] [|] [|] [|]]; split; reflexivity.
Qed.

Lemma toLowerCase_append a b :
  toLowerCase (a ++ b) = toLowerCase a ++ toLowerCase b.
Proof. induction a as [|x a IH]; [reflexivity|]. cbn. now rewrite IH. Qed.

Lemma toLowerCase_idem s : toLowerCase (toLowerCase s) = toLowerCase s.
Proof.
  induction s as [|c rest IH]; [reflexivity|].
  cbn [toLowerCase]. rewrite IH. f_equal. apply lowerChar_facts.
Qed.

Lemma lastSegment_lower s :
  forall acc, lastSegment (toLowerCase acc) (toLowerCase s)
              = toLowerCase (lastSegment acc s).
Proof.
  induction s as [|c rest IH]; intros acc; [reflexivity|].
  cbn [toLowerCase lastSegment].
  rewrite (proj2 (lowerChar_facts c)).
  destruct (codeOf c =? 46).
  - apply (IH EmptyString).
  - rewrite <- IH. f_equal. now rewrite toLowerCase_append.
Qed.

(** X22: [getMimeType] looks only at the text after the last dot of the
    file name, and at the whole name when it has no dot, and does not
    distinguish upper-case from lower-case ASCII letters. *)
Theorem X22_mime_by_last_extension base ext filename :
  noDot ext = true ->
  getMimeType (base ++ String "." ext) = getMimeType ext
  /\ extensionOf ext = toLowerCase ext
  /\ getMimeType (toLowerCase filename) = getMimeType filename.
Proof.
  intros Hext.
  assert (E1 : extensionOf (base ++ String "." ext) = extensionOf ext).
  { unfold extensionOf. now rewrite lastSegment_after_dot. }
  assert (E2 : extensionOf ext = toLowerCase ext).
  { unfold extensionOf. now rewrite (lastSegment_noDot ext Hext). }
  assert (E3 : extensionOf (toLowerCase filename) = extensionOf filename).
  { unfold extensionOf.
    change EmptyString with (toLowerCase EmptyString) at 1.
    now rewrite lastSegment_lower, toLowerCase_idem. }
  unfold getMimeType. now rewrite E1, E3.
Qed.

Lemma X22_mime_by_last_extension_witness :
  noDot "CSS" = true
  /\ getMimeType ("theme/site.min" ++ String "." "CSS") = MimeString "text/css".
Proof.
  split; [reflexivity|].
  rewrite (proj1 (X22_mime_by_last_extension "theme/site.min" "CSS" "" eq_refl)).
  reflexivity.
Defined.

(** X23: for every file name, [getMimeType] returns a non-empty type
    taken from its table, or [application/octet-stream] when the
    lower-cased extension is not in the table (no extension included);
    the only exceptions are the extensions [constructor] and
    [__proto__], for which the value inherited by the table object is
    returned instead of a string. *)
Theorem X23_mime_result filename :
  match getMimeType filename with
  | MimeString m =>
    m <> ""
    /\ (lookupMime (extensionOf filename) = Some m
        \/ (lookupMime (extensionOf filename) = None
            /\ m = "application/octet-stream"))
  | InheritedValue name =>
    name = extensionOf filename
    /\ lookupMime name = None
    /\ (name = "constructor" \/ name = "__proto__")
  end.
Proof.
  unfold getMimeType.
  destruct (lookupMime (extensionOf filename)) as [m|] eqn:L.
  - split; [|now left].
    unfold lookupMime in L.
    destruct (find _ mimeTypes) as [kv|] eqn:F; [|discriminate L].
    injection L as <-. apply find_some in F. destruct F as [Hin _].
    assert (All : forallb (fun kv => negb (String.eqb (snd kv) "")) mimeTypes
                  = true) by reflexivity.
    rewrite forallb_forall in All. specialize (All kv Hin).
    apply negb_true_iff, String.eqb_neq in All. exact All.
  - destruct (String.eqb (extensionOf filename) "constructor") eqn:C;
      cbn [orb].
    + split; [reflexivity|]. split; [exact L|]. left. now apply String.eqb_eq.
    + destruct (String.eqb (extensionOf filename) "__proto__") eqn:P.
      * split; [reflexivity|]. split; [exact L|]. right. now apply String.eqb_eq.
      * split; [discriminate | right; now split].
Qed.
